(** * Query validation and execution gateway of the smart-home database tool

    A shallow embedding of [SmartHomeDatabaseTool.validate_sql],
    [_extract_table_names], [_get_existing_tables] and [execute_query]
    (src/smart_home_db_tool.py), with the statements proved about them.

    The tool talks to two libraries that are not part of the repository:
    the [sqlparse] tokenizer and the [sqlite3] engine.  Their data types are
    modelled below as the gateway sees them; their behaviour is a parameter
    (record [Collaborators]), so every general theorem holds for every
    tokenizer and every engine.  A small tokenizer and a small in-memory
    engine ([Demo]) instantiate the parameters for the concrete scenarios. *)

From Stdlib Require Import Ascii String ZArith.
From stdpp Require Import gmap strings list fin_maps.

Local Open Scope string_scope.
Set Warnings "-register-all".

(** ** Python string operations used by the gateway *)

Module Str.

(** [str.upper] and [str.lower] on the ASCII letters; other bytes are kept. *)
Definition upper_ascii (c : ascii) : ascii :=
  let n := nat_of_ascii c in
  if (97 <=? n)%nat && (n <=? 122)%nat then ascii_of_nat (n - 32) else c.

Definition lower_ascii (c : ascii) : ascii :=
  let n := nat_of_ascii c in
  if (65 <=? n)%nat && (n <=? 90)%nat then ascii_of_nat (n + 32) else c.

Fixpoint upper (s : string) : string :=
  match s with
  | EmptyString => EmptyString
  | String c r => String (upper_ascii c) (upper r)
  end.

Fixpoint lower (s : string) : string :=
  match s with
  | EmptyString => EmptyString
  | String c r => String (lower_ascii c) (lower r)
  end.

(** [sep.join(xs)] *)
Definition join (sep : string) (xs : list string) : string := String.concat sep xs.

(** The characters [str.isspace] accepts among the ASCII ones. *)
Definition is_space (c : ascii) : bool :=
  let n := nat_of_ascii c in
  (n =? 32)%nat || ((9 <=? n)%nat && (n <=? 13)%nat).

(** Empty or whitespace-only: [not s.strip()]. *)
Fixpoint blank (s : string) : bool :=
  match s with
  | EmptyString => true
  | String c r => is_space c && blank r
  end.

(** [needle in haystack] *)
Fixpoint contains (needle haystack : string) : bool :=
  String.prefix needle haystack
  || match haystack with
     | EmptyString => false
     | String _ rest => contains needle rest
     end.

End Str.

(** ** The token tree of [sqlparse] *)

Module Sqlparse.

(** Members of [sqlparse.tokens] that the lexer attaches to tokens. *)
Inductive TokenType :=
| Whitespace | Newline
| Keyword | Keyword_DML | Keyword_DDL
| Name | Name_Builtin
| String_Single | String_Symbol | Number_Integer | Number_Float
| Punctuation | Operator | Comparison | Wildcard
| Comment_Single | Comment_Multiline
| Error.

(** Subclasses of [sql.TokenList]. *)
Inductive GroupClass :=
| Statement | Identifier | IdentifierList | Parenthesis | Where
| ComparisonGroup | Function | Values | CommentGroup.

(** A [sql.Token] made by the lexer carries a token type and its text; a
    [sql.TokenList] has [ttype = None] and owns its children, whose [parent]
    it is. *)
Inductive Token :=
| Leaf (ty : TokenType) (text : string)
| Group (cls : GroupClass) (children : list Token).

(** The direct children of a [sql.Statement]. *)
Definition StatementTokens := list Token.

Definition ttype (t : Token) : option TokenType :=
  match t with
  | Leaf ty _ => Some ty
  | Group _ _ => None
  end.

(** [token.value]: the text of a leaf, [str(self)] for a group. *)
Fixpoint value (t : Token) : string :=
  match t with
  | Leaf _ text => text
  | Group _ children => String.concat "" (map value children)
  end.

(** [ttype in T.Whitespace] *)
Definition in_Whitespace (ty : TokenType) : bool :=
  match ty with
  | Whitespace | Newline => true
  | _ => false
  end.

(** [ttype in T.Comment] *)
Definition in_Comment (ty : TokenType) : bool :=
  match ty with
  | Comment_Single | Comment_Multiline => true
  | _ => false
  end.

(** [token.is_whitespace]; false for a group, whose [ttype] is [None]. *)
Definition is_whitespace (t : Token) : bool :=
  match ttype t with
  | Some ty => in_Whitespace ty
  | None => false
  end.

(** [imt(tk, t=T.Comment, i=Comment)] *)
Definition is_comment (t : Token) : bool :=
  match t with
  | Group CommentGroup _ => true
  | Group _ _ => false
  | Leaf ty _ => in_Comment ty
  end.

(** [TokenList.token_first(skip_ws, skip_cm)]: the first direct child that is
    not skipped, or [None]. *)
Definition token_first (skip_ws skip_cm : bool) (tokens : list Token) : option Token :=
  List.find (fun tk => negb ((skip_ws && is_whitespace tk) || (skip_cm && is_comment tk))) tokens.

(** [TokenList.flatten()]: the ungrouped tokens in order, each with the class
    of its [parent]. *)
Fixpoint flatten_in (parent : GroupClass) (t : Token) : list (Token * GroupClass) :=
  match t with
  | Leaf _ _ => [(t, parent)]
  | Group cls children => flat_map (flatten_in cls) children
  end.

Definition flatten (stmt : StatementTokens) : list (Token * GroupClass) :=
  flat_map (flatten_in Statement) stmt.

Definition is_Statement (c : GroupClass) : bool :=
  match c with
  | Statement => true
  | _ => false
  end.

End Sqlparse.

Import Sqlparse.

(** ** Values, exceptions and the result envelope *)

(** Values stored in a result row. *)
Inductive SqlValue :=
| SqlNull
| SqlInt (z : Z)
| SqlText (s : string).

#[global] Instance SqlValue_eq_dec : EqDecision SqlValue.
Proof. solve_decision. Defined.

Definition Row := list SqlValue.

(** Python exceptions, split the way the handlers of the gateway split them:
    [sqlite3.Error] and every other subclass of [Exception]. *)
Inductive Exn :=
| SqliteError (msg : string)
| OtherException (msg : string).

(** [str(e)] *)
Definition exn_str (e : Exn) : string :=
  match e with
  | SqliteError msg => msg
  | OtherException msg => msg
  end.

Inductive Outcome (A : Type) :=
| Return (a : A)
| Raise (e : Exn).
Arguments Return {A} a.
Arguments Raise {A} e.

(** Values of the dictionary the gateway returns. *)
Inductive Value :=
| VBool (b : bool)
| VStr (s : string)
| VInt (z : Z)
| VSeconds (microseconds : Z)
| VStrList (l : list string)
| VRows (l : list Row).

Abbreviation Envelope := (gmap string Value).

(** What the engine hands back to the cursor for one statement:
    [cursor.description] (column names only), the rows and [cursor.rowcount]. *)
Record ResultSet := {
  rs_description : option (list string);
  rs_rows : list Row;
  rs_rowcount : Z
}.

(** The libraries outside the repository. *)
Record Collaborators := {
  (** content of the database file *)
  DB : Type;
  (** [sqlparse.parse] *)
  parse : string -> Outcome (list StatementTokens);
  (** what [sqlite3] does with one statement: an exception, or a result set
      and the new content *)
  sqlite_execute : string -> DB -> Outcome (ResultSet * DB);
  (** [conn.commit()] *)
  sqlite_commit : DB -> Outcome DB;
  (** [datetime.now()] at the n-th reading, in microseconds *)
  wall_clock : nat -> Z
}.

(** ** The tool object: connection, cursor and clock *)

(** The state a [sqlite3.Cursor] keeps between calls. *)
Record Cursor := {
  description : option (list string);
  pending : list Row;
  rowcount : Z
}.

(** A cursor that holds no result set. *)
Definition idle_cursor : Cursor :=
  {| description := None; pending := []; rowcount := (-1)%Z |}.

Definition cursor_of (rs : ResultSet) : Cursor :=
  {| description := rs_description rs; pending := rs_rows rs; rowcount := rs_rowcount rs |}.

(** [self.conn] with the [self.cursor] made from it (the tool sets both
    together), and the statements handed to the engine so far. *)
Record Connection (D : Type) := {
  database : D;
  cursor : Cursor;
  sent : list string
}.
Arguments database {D} c.
Arguments cursor {D} c.
Arguments sent {D} c.

(** The tool over a database content of type [D]; [conn = None] is the tool
    before any connection was opened. *)
Record Tool (D : Type) := {
  conn : option (Connection D);
  ticks : nat
}.
Arguments conn {D} t.
Arguments ticks {D} t.

(** ** Computations of the tool: state passing with exceptions *)

Definition M (E : Collaborators) (A : Type) : Type :=
  Tool (DB E) -> Outcome A * Tool (DB E).

#[global] Instance M_ret E : MRet (M E) := fun A a t => (Return a, t).

#[global] Instance M_bind E : MBind (M E) := fun A B f m t =>
  match m t with
  | (Return a, t') => f a t'
  | (Raise e, t') => (Raise e, t')
  end.

Definition lift {E A} (o : Outcome A) : M E A := fun t => (o, t).

(** [try: body except ...]: the handler says which exceptions it takes. *)
Definition try_except {E A} (body : M E A) (handler : Exn -> option (M E A)) : M E A :=
  fun t =>
    match body t with
    | (Return a, t') => (Return a, t')
    | (Raise e, t') =>
      match handler e with
      | Some h => h t'
      | None => (Raise e, t')
      end
    end.

(** [except sqlite3.Error as e] *)
Definition except_sqlite3_Error {E A} (h : string -> M E A) (e : Exn) : option (M E A) :=
  match e with
  | SqliteError msg => Some (h msg)
  | OtherException _ => None
  end.

(** [except Exception as e] *)
Definition except_Exception {E A} (h : string -> M E A) (e : Exn) : option (M E A) :=
  Some (h (exn_str e)).

(** ** Dictionary and list helpers *)

(** [d[k]] *)
Definition getitem (d : Envelope) (k : string) : Outcome Value :=
  match d !! k with
  | Some v => Return v
  | None => Raise (OtherException ("'" ++ k ++ "'"))
  end.

(** Truth value of a stored value, as [not v] tests it. *)
Definition truthy (v : Value) : bool :=
  match v with
  | VBool b => b
  | VStr s => negb (String.eqb s "")
  | VInt z => negb (z =? 0)%Z
  | VSeconds z => negb (z =? 0)%Z
  | VStrList l => match l with [] => false | _ => true end
  | VRows l => match l with [] => false | _ => true end
  end.

(** [v == s] for a string literal [s] *)
Definition eq_str (v : Value) (s : string) : bool :=
  match v with
  | VStr x => String.eqb x s
  | _ => false
  end.

(** The text an f-string inserts for the value under ['statement_type'],
    which is always a string. *)
Definition fmt (v : Value) : string :=
  match v with
  | VStr s => s
  | VBool true => "True"
  | VBool false => "False"
  | _ => ""
  end.

(** [[row[0] for row in rows]] *)
Fixpoint first_column (rows : list Row) : Outcome (list SqlValue) :=
  match rows with
  | [] => Return []
  | [] :: _ => Raise (OtherException "tuple index out of range")
  | (v :: _) :: rest =>
    match first_column rest with
    | Return vs => Return (v :: vs)
    | Raise e => Raise e
    end
  end.

(** The items as [str.join] takes them: a [TypeError] unless all are text. *)
Fixpoint join_items (vs : list SqlValue) : Outcome (list string) :=
  match vs with
  | [] => Return []
  | SqlText s :: rest =>
    match join_items rest with
    | Return ss => Return (s :: ss)
    | Raise e => Raise e
    end
  | _ :: _ => Raise (OtherException "sequence item: expected str instance")
  end.

(** ** The gateway *)

Section Gateway.

Context {E : Collaborators}.

Definition with_cursor (c : Connection (DB E)) (cu : Cursor) : Connection (DB E) :=
  {| database := database c; cursor := cu; sent := sent c |}.

Definition no_cursor_attribute (name : string) : Exn :=
  OtherException ("'NoneType' object has no attribute '" ++ name ++ "'").

(** [self.cursor.execute(stmt)] *)
Definition cursor_execute (stmt : string) : M E unit := fun t =>
  match conn t with
  | None => (Raise (no_cursor_attribute "execute"), t)
  | Some c =>
    match sqlite_execute E stmt (database c) with
    | Return (rs, db') =>
      (Return (),
       {| conn := Some {| database := db'; cursor := cursor_of rs; sent := sent c ++ [stmt] |};
          ticks := ticks t |})
    | Raise e =>
      (Raise e,
       {| conn := Some {| database := database c; cursor := idle_cursor; sent := sent c ++ [stmt] |};
          ticks := ticks t |})
    end
  end.

(** [self.cursor.fetchall()] *)
Definition cursor_fetchall : M E (list Row) := fun t =>
  match conn t with
  | None => (Raise (no_cursor_attribute "fetchall"), t)
  | Some c =>
    (Return (pending (cursor c)),
     {| conn := Some (with_cursor c {| description := description (cursor c);
                                       pending := [];
                                       rowcount := rowcount (cursor c) |});
        ticks := ticks t |})
  end.

(** [[description[0] for description in self.cursor.description]] *)
Definition cursor_column_names : M E (list string) := fun t =>
  match conn t with
  | None => (Raise (no_cursor_attribute "description"), t)
  | Some c =>
    match description (cursor c) with
    | Some names => (Return names, t)
    | None => (Raise (OtherException "'NoneType' object is not iterable"), t)
    end
  end.

(** [self.cursor.rowcount] *)
Definition cursor_rowcount : M E Z := fun t =>
  match conn t with
  | None => (Raise (no_cursor_attribute "rowcount"), t)
  | Some c => (Return (rowcount (cursor c)), t)
  end.

(** [self.conn.commit()] *)
Definition conn_commit : M E unit := fun t =>
  match conn t with
  | None => (Raise (no_cursor_attribute "commit"), t)
  | Some c =>
    match sqlite_commit E (database c) with
    | Return db' =>
      (Return (),
       {| conn := Some {| database := db'; cursor := cursor c; sent := sent c |};
          ticks := ticks t |})
    | Raise e => (Raise e, t)
    end
  end.

(** [datetime.now()] *)
Definition now : M E Z := fun t =>
  (Return (wall_clock E (ticks t)), {| conn := conn t; ticks := S (ticks t) |}).

(** The candidate vocabulary of [_extract_table_names]. *)
Definition tables : list string :=
  ["users"; "devices"; "usage_logs"; "security_events"; "user_feedback"; "rooms"].

(** The body of the inner loop of [_extract_table_names] for one token. *)
Definition collect_token (tp : Token * GroupClass) : list string :=
  let (token, parent) := tp in
  match ttype token with
  | None =>
    if is_Statement parent
    then if bool_decide (Str.lower (value token) ∈ tables)
         then [Str.lower (value token)]
         else []
    else []
  | Some _ => []
  end.

(** The names appended to [table_names] over all statements. *)
Definition collected (parsed : list StatementTokens) : list string :=
  flat_map (fun statement => flat_map collect_token (flatten statement)) parsed.

(** [_extract_table_names]: [list(set(table_names))]. *)
Definition _extract_table_names (sql_query : string) : M E (list string) :=
  parsed ← lift (parse E sql_query);
  mret (elements (list_to_set (collected parsed) : gset string)).

Definition catalog_query : string :=
  "SELECT name FROM sqlite_master WHERE type='table'".

(** [_get_existing_tables] *)
Definition _get_existing_tables : M E (list SqlValue) :=
  cursor_execute catalog_query;;
  rows ← cursor_fetchall;
  lift (first_column rows).

(** [set(table_names) - set(existing_tables)] *)
Definition set_difference (table_names : list string) (existing_tables : list SqlValue)
  : gset string :=
  filter (fun name => SqlText name ∉ existing_tables) (list_to_set table_names : gset string).

Definition explain (sql_query : string) : string := "EXPLAIN QUERY PLAN " ++ sql_query.

(** The part of [validate_sql] inside [try:]. *)
Definition validate_sql_body (sql_query : string) : M E Envelope :=
  parsed ← lift (parse E sql_query);
  match parsed with
  | [] =>
    mret {[ "valid" := VBool false;
            "error" := VStr "SQL语句为空或无法解析";
            "suggestion" := VStr "请输入有效的SQL查询语句" ]}
  | first_statement :: _ =>
    match token_first true true first_statement with
    | Some (Leaf Keyword_DML text) =>
      let statement_type := Str.upper text in
      table_names ← _extract_table_names sql_query;
      existing_tables ← _get_existing_tables;
      let invalid_tables := elements (set_difference table_names existing_tables) in
      match invalid_tables with
      | _ :: _ =>
        existing_names ← lift (join_items existing_tables);
        mret {[ "valid" := VBool false;
                "error" := VStr ("表名不存在: " ++ Str.join ", " invalid_tables);
                "suggestion" := VStr ("可用的表包括: " ++ Str.join ", " existing_names) ]}
      | [] =>
        rejected ←
          (if String.eqb statement_type "SELECT"
           then try_except
                  (cursor_execute (explain sql_query);; mret None)
                  (except_sqlite3_Error (fun msg =>
                     mret (Some ({[ "valid" := VBool false;
                                    "error" := VStr ("SQL语法错误: " ++ msg);
                                    "suggestion" := VStr "请检查列名、表名和SQL语法是否正确" ]}
                                 : Envelope))))
           else mret None);
        match rejected with
        | Some envelope => mret envelope
        | None =>
          mret {[ "valid" := VBool true;
                  "message" := VStr "SQL语句语法正确";
                  "statement_type" := VStr statement_type;
                  "tables" := VStrList table_names ]}
        end
      end
    | _ =>
      mret {[ "valid" := VBool false;
              "error" := VStr "无法识别SQL语句类型";
              "suggestion" := VStr "请确保使用SELECT、INSERT、UPDATE或DELETE语句" ]}
    end
  end.

(** [validate_sql] *)
Definition validate_sql (sql_query : string) : M E Envelope :=
  try_except (validate_sql_body sql_query)
    (except_Exception (fun msg =>
       mret {[ "valid" := VBool false;
               "error" := VStr ("SQL验证失败: " ++ msg);
               "suggestion" := VStr "请检查SQL语句格式是否正确" ]})).

(** The [SELECT] branch of [execute_query]. *)
Definition run_select (sql_query : string) (start_time : Z) : M E Envelope :=
  cursor_execute (explain sql_query);;
  query_plan ← cursor_fetchall;
  cursor_execute sql_query;;
  results ← cursor_fetchall;
  column_names ← cursor_column_names;
  end_time ← now;
  mret {[ "valid" := VBool true;
          "statement_type" := VStr "SELECT";
          "results" := VRows results;
          "columns" := VStrList column_names;
          "row_count" := VInt (Z.of_nat (length results));
          "execution_time" := VSeconds (end_time - start_time);
          "query_plan" := VRows query_plan ]}.

(** The branch of [execute_query] for the other statements. *)
Definition run_other (sql_query : string) (validation_result : Envelope) (start_time : Z)
  : M E Envelope :=
  cursor_execute sql_query;;
  conn_commit;;
  end_time ← now;
  statement_type ← lift (getitem validation_result "statement_type");
  affected_rows ← cursor_rowcount;
  mret {[ "valid" := VBool true;
          "statement_type" := statement_type;
          "affected_rows" := VInt affected_rows;
          "execution_time" := VSeconds (end_time - start_time);
          "message" := VStr (fmt statement_type ++ " 语句执行成功") ]}.

(** [execute_query] *)
Definition execute_query (sql_query : string) : M E Envelope :=
  validation_result ← validate_sql sql_query;
  valid ← lift (getitem validation_result "valid");
  if negb (truthy valid)
  then mret validation_result
  else
    try_except
      (start_time ← now;
       statement_type ← lift (getitem validation_result "statement_type");
       if eq_str statement_type "SELECT"
       then run_select sql_query start_time
       else run_other sql_query validation_result start_time)
      (except_sqlite3_Error (fun msg =>
         mret {[ "valid" := VBool false;
                 "error" := VStr ("查询执行失败: " ++ msg);
                 "suggestion" := VStr "请检查SQL语句是否正确" ]})).

End Gateway.

(** ** Observations used in the statements *)

Section Observations.

Context {E : Collaborators}.

(** The failure and success dictionaries of [validate_sql]. *)
Definition rejection (error suggestion : string) : Envelope :=
  {[ "valid" := VBool false; "error" := VStr error; "suggestion" := VStr suggestion ]}.

Definition acceptance (statement_type : string) (table_names : list string) : Envelope :=
  {[ "valid" := VBool true;
     "message" := VStr "SQL语句语法正确";
     "statement_type" := VStr statement_type;
     "tables" := VStrList table_names ]}.

Definition empty_or_unparseable : Envelope :=
  rejection "SQL语句为空或无法解析" "请输入有效的SQL查询语句".

Definition unrecognized_statement : Envelope :=
  rejection "无法识别SQL语句类型" "请确保使用SELECT、INSERT、UPDATE或DELETE语句".

Definition unknown_tables (invalid existing : list string) : Envelope :=
  rejection ("表名不存在: " ++ Str.join ", " invalid) ("可用的表包括: " ++ Str.join ", " existing).

Definition syntax_probe_failure (msg : string) : Envelope :=
  rejection ("SQL语法错误: " ++ msg) "请检查列名、表名和SQL语法是否正确".

Definition validation_failed (e : Exn) : Envelope :=
  rejection ("SQL验证失败: " ++ exn_str e) "请检查SQL语句格式是否正确".

Definition execution_failure (msg : string) : Envelope :=
  rejection ("查询执行失败: " ++ msg) "请检查SQL语句是否正确".

(** The string stored under a key, empty when there is none. *)
Definition text_at (e : Envelope) (k : string) : string :=
  match e !! k with
  | Some (VStr s) => s
  | _ => ""
  end.

(** The call returned a dictionary whose ['valid'] entry is [b]. *)
Definition reports (r : Outcome Envelope * Tool (DB E)) (b : bool) : Prop :=
  ∃ e, r.1 = Return e ∧ e !! "valid" = Some (VBool b).

(** The first token of the first statement that is neither blank nor
    comment: [parsed[0].token_first(skip_ws=True, skip_cm=True)]. *)
Definition first_token (sql_query : string) : option Token :=
  match parse E sql_query with
  | Return (first_statement :: _) => token_first true true first_statement
  | _ => None
  end.

(** The statement kind [validate_sql] works with: the upper-cased text of the
    first token, when the tokenizer classed it as a DML keyword. *)
Definition statement_kind (sql_query : string) : option string :=
  match first_token sql_query with
  | Some (Leaf Keyword_DML text) => Some (Str.upper text)
  | _ => None
  end.

(** [ttype in T.Keyword] *)
Definition in_Keyword (ty : TokenType) : bool :=
  match ty with
  | Keyword | Keyword_DML | Keyword_DDL => true
  | _ => false
  end.

Definition supported_kinds : list string := ["SELECT"; "INSERT"; "UPDATE"; "DELETE"].

(** [referenced_tables]: what [_extract_table_names] returns. *)
Definition referenced_tables (sql_query : string) (t : Tool (DB E)) : list string :=
  match (_extract_table_names sql_query t).1 with
  | Return names => names
  | Raise _ => []
  end.

(** [known_tables()]: what [_get_existing_tables] returns. *)
Definition known_tables (t : Tool (DB E)) : list SqlValue :=
  match (_get_existing_tables t).1 with
  | Return existing => existing
  | Raise _ => []
  end.

(** The same connection state up to the cursor and the log: both tools are
    unconnected, or both hold the same database content. *)
Definition same_database (t t' : Tool (DB E)) : Prop :=
  database <$> conn t = database <$> conn t'.

(** Every row is as long as the description. *)
Definition well_formed (rs : ResultSet) : Prop :=
  ∀ names, rs_description rs = Some names →
    Forall (fun row : Row => length row = length names) (rs_rows rs).

(** The invariant of the data model, as the specification words it. *)
Definition validity_invariant (sql_query : string) (t : Tool (DB E)) : Prop :=
  reports (validate_sql sql_query t) true ↔
  (∃ k, statement_kind sql_query = Some k ∧ k ∈ supported_kinds)
  ∧ ∀ name, name ∈ referenced_tables sql_query t → SqlText name ∈ known_tables t.

(** The unknown-table report, as the specification words it: invalid, the
    error names the unknown tables and the suggestion names every known one. *)
Definition unknown_table_report (sql_query : string) (t : Tool (DB E)) (unknown : list string) : Prop :=
  ∃ e, (validate_sql sql_query t).1 = Return e
       ∧ e !! "valid" = Some (VBool false)
       ∧ (∀ name, name ∈ unknown → Str.contains name (text_at e "error") = true)
       ∧ (∀ name, SqlText name ∈ known_tables t →
                  Str.contains name (text_at e "suggestion") = true).

(** The rejection of other statement kinds, as the specification words it:
    when the first keyword is none of the four, the statement is turned down
    as unrecognized. *)
Definition unsupported_kind_rejected (sql_query : string) (t : Tool (DB E)) : Prop :=
  ∀ ty text,
    first_token sql_query = Some (Leaf ty text) →
    in_Keyword ty = true →
    Str.upper text ∉ supported_kinds →
    (validate_sql sql_query t).1 = Return unrecognized_statement.

End Observations.

Arguments first_token E sql_query : clear implicits.
Arguments statement_kind E sql_query : clear implicits.

(** Contracts of the libraries that some statements assume. *)

(** The tokenizer yields no statement for an empty or whitespace-only text. *)
Definition drops_blank (E : Collaborators) : Prop :=
  ∀ s, Str.blank s = true → parse E s = Return [].

(** The catalog listing and [EXPLAIN QUERY PLAN] leave the content alone. *)
Definition read_only_probes (E : Collaborators) : Prop :=
  ∀ stmt db rs db',
    stmt = catalog_query ∨ (∃ q, stmt = explain q) →
    sqlite_execute E stmt db = Return (rs, db') → db' = db.

(** The engine hands out rows as long as the description. *)
Definition rows_match_description (E : Collaborators) : Prop :=
  ∀ stmt db rs db', sqlite_execute E stmt db = Return (rs, db') → well_formed rs.

(** ** A small tokenizer and a small engine

    Stand-ins for [sqlparse] and [sqlite3] on which the gateway can be run.
    The tokenizer lexes words, blanks and single punctuation characters,
    classifies words with the keyword classes of [sqlparse], splits statements
    at [;], drops a statement made of blanks only and wraps every name in an
    [Identifier].  It builds the tree [sqlparse] builds for the statements
    used in this file; [sqlparse] groups more in general (aliases, [WHERE]
    clauses, parentheses).  The engine keeps tables in memory and knows
    [SELECT * FROM t], [DELETE FROM t], [DROP TABLE t], the catalog listing
    and [EXPLAIN QUERY PLAN] of these, with the messages of [sqlite3]. *)

Module Demo.

Definition is_digit (c : ascii) : bool :=
  let n := nat_of_ascii c in (48 <=? n)%nat && (n <=? 57)%nat.

Definition is_word_char (c : ascii) : bool :=
  let n := nat_of_ascii c in
  is_digit c || ((65 <=? n)%nat && (n <=? 90)%nat)
  || ((97 <=? n)%nat && (n <=? 122)%nat) || (n =? 95)%nat.

Fixpoint all_chars (p : ascii -> bool) (s : string) : bool :=
  match s with
  | EmptyString => true
  | String c r => p c && all_chars p r
  end.

Definition dml_keywords : list string :=
  ["SELECT"; "INSERT"; "DELETE"; "UPDATE"; "UPSERT"; "REPLACE"; "MERGE"].

Definition ddl_keywords : list string := ["DROP"; "CREATE"; "ALTER"].

Definition plain_keywords : list string :=
  ["FROM"; "WHERE"; "TABLE"; "INTO"; "VALUES"; "SET"; "DEFAULT"; "AND"; "OR"; "NOT";
   "NULL"; "ORDER"; "GROUP"; "BY"; "LIMIT"; "EXPLAIN"; "USER"].

Definition classify (word : string) : Token :=
  if all_chars is_digit word then Leaf Number_Integer word
  else if bool_decide (Str.upper word ∈ dml_keywords) then Leaf Keyword_DML word
  else if bool_decide (Str.upper word ∈ ddl_keywords) then Leaf Keyword_DDL word
  else if bool_decide (Str.upper word ∈ plain_keywords) then Leaf Keyword word
  else Leaf Name word.

Definition flush (word : string) : list Token :=
  match word with
  | EmptyString => []
  | _ => [classify word]
  end.

Definition single (c : ascii) : Token :=
  let text := String c EmptyString in
  let n := nat_of_ascii c in
  if (n =? 10)%nat || (n =? 13)%nat then Leaf Newline text
  else if Str.is_space c then Leaf Whitespace text
  else if (n =? 42)%nat then Leaf Wildcard text
  else if (n =? 59)%nat || (n =? 44)%nat || (n =? 40)%nat || (n =? 41)%nat || (n =? 46)%nat
       then Leaf Punctuation text
  else if (n =? 61)%nat || (n =? 60)%nat || (n =? 62)%nat then Leaf Comparison text
  else Leaf Error text.

(** The lexer; [word] is the word read so far. *)
Fixpoint lex (s : string) (word : string) : list Token :=
  match s with
  | EmptyString => flush word
  | String c r =>
    if is_word_char c then lex r (word ++ String c EmptyString)
    else flush word ++ single c :: lex r EmptyString
  end.

Definition is_semicolon (t : Token) : bool :=
  match t with
  | Leaf Punctuation ";" => true
  | _ => false
  end.

Definition ends_statement_blank (t : Token) : bool :=
  match t with
  | Leaf Whitespace _ | Leaf Comment_Single _ => true
  | _ => false
  end.

(** The statement splitter: after a [;] the statement takes the blanks that
    follow, the next other token starts a new statement, and a last statement
    of blanks only is dropped. *)
Fixpoint split (toks current : list Token) (consume_ws : bool) : list (list Token) :=
  match toks with
  | [] => if forallb is_whitespace current then [] else [current]
  | tk :: rest =>
    if consume_ws && negb (ends_statement_blank tk)
    then current :: split rest [tk] (is_semicolon tk)
    else split rest (current ++ [tk]) (consume_ws || is_semicolon tk)
  end.

Definition group (t : Token) : Token :=
  match t with
  | Leaf Name _ => Group Identifier [t]
  | _ => t
  end.

Definition tokenize (s : string) : Outcome (list StatementTokens) :=
  Return (map (map group) (split (lex s EmptyString) [] false)).

(** *** Tables in memory *)

(** A stored row gives a value to column names; a column it does not
    mention is [NULL]. *)
Definition Stored := list (string * SqlValue).

Definition field (r : Stored) (column : string) : SqlValue :=
  match List.find (fun p => String.eqb (fst p) column) r with
  | Some p => snd p
  | None => SqlNull
  end.

Record Table := {
  t_name : string;
  t_columns : list string;
  t_rows : list Stored
}.

Definition Database := list Table.

Definition same_name (a b : string) : bool := String.eqb (Str.lower a) (Str.lower b).

Definition find_table (db : Database) (name : string) : option Table :=
  List.find (fun t => same_name (t_name t) name) db.

Definition dq : string := String (ascii_of_nat 34) EmptyString.

Definition syntax_error_near (word : string) : Exn :=
  SqliteError ("near " ++ dq ++ word ++ dq ++ ": syntax error").

Definition incomplete_input : Exn := SqliteError "incomplete input".

Inductive Compiled :=
| SelectAll (table : string)
| DeleteAll (table : string)
| DropTable (table : string).

(** The words of a statement. *)
Definition words (stmt : string) : list string :=
  map value (List.filter (fun t => negb (is_whitespace t)) (lex stmt EmptyString)).

(** Reads the expected keywords, then exactly one table name. *)
Fixpoint expect (keywords : list string) (ws : list string) : Outcome string :=
  match keywords, ws with
  | _, [] => Raise incomplete_input
  | k :: ks, w :: rest =>
    if String.eqb (Str.upper w) k then expect ks rest else Raise (syntax_error_near w)
  | [], [name] =>
    if all_chars is_word_char name then Return name else Raise (syntax_error_near name)
  | [], name :: w :: _ =>
    if all_chars is_word_char name then Raise (syntax_error_near w)
    else Raise (syntax_error_near name)
  end.

Definition compile (ws : list string) : Outcome Compiled :=
  match ws with
  | [] => Raise incomplete_input
  | w :: rest =>
    let build (make : string -> Compiled) (keywords : list string) :=
      match expect keywords rest with
      | Return name => Return (make name)
      | Raise e => Raise e
      end in
    if String.eqb (Str.upper w) "SELECT" then build SelectAll ["*"; "FROM"]
    else if String.eqb (Str.upper w) "DELETE" then build DeleteAll ["FROM"]
    else if String.eqb (Str.upper w) "DROP" then build DropTable ["TABLE"]
    else Raise (syntax_error_near w)
  end.

Definition table_of (c : Compiled) : string :=
  match c with
  | SelectAll t | DeleteAll t | DropTable t => t
  end.

(** Compilation against the schema: the table has to exist. *)
Definition prepare (ws : list string) (db : Database) : Outcome (Compiled * Table) :=
  match compile ws with
  | Raise e => Raise e
  | Return c =>
    match find_table db (table_of c) with
    | Some t => Return (c, t)
    | None => Raise (SqliteError ("no such table: " ++ table_of c))
    end
  end.

Definition no_rows (count : Z) : ResultSet :=
  {| rs_description := None; rs_rows := []; rs_rowcount := count |}.

Definition run (c : Compiled) (t : Table) (db : Database) : ResultSet * Database :=
  match c with
  | SelectAll _ =>
    ({| rs_description := Some (t_columns t);
        rs_rows := map (fun r => map (field r) (t_columns t)) (t_rows t);
        rs_rowcount := (-1)%Z |}, db)
  | DeleteAll name =>
    (no_rows (Z.of_nat (length (t_rows t))),
     map (fun u => if same_name (t_name u) name
                   then {| t_name := t_name u; t_columns := t_columns u; t_rows := [] |}
                   else u) db)
  | DropTable name =>
    (no_rows (-1)%Z, List.filter (fun u => negb (same_name (t_name u) name)) db)
  end.

Definition plan_of (c : Compiled) (t : Table) : ResultSet :=
  {| rs_description := Some ["id"; "parent"; "notused"; "detail"];
     rs_rows := match c with
                | DropTable _ => []
                | _ => [[SqlInt 2; SqlInt 0; SqlInt 0; SqlText ("SCAN " ++ t_name t)]]
                end;
     rs_rowcount := (-1)%Z |}.

(** The words after a leading [EXPLAIN QUERY PLAN]. *)
Definition strip_explain (ws : list string) : option (list string) :=
  match ws with
  | w1 :: w2 :: w3 :: rest =>
    if String.eqb (Str.upper w1) "EXPLAIN" && String.eqb (Str.upper w2) "QUERY"
       && String.eqb (Str.upper w3) "PLAN"
    then Some rest
    else None
  | _ => None
  end.

Definition catalog (db : Database) : ResultSet :=
  {| rs_description := Some ["name"];
     rs_rows := map (fun t => [SqlText (t_name t)]) db;
     rs_rowcount := (-1)%Z |}.

Definition execute (stmt : string) (db : Database) : Outcome (ResultSet * Database) :=
  if String.eqb stmt catalog_query
  then Return (catalog db, db)
  else
    match strip_explain (words stmt) with
    | Some ws =>
      match prepare ws db with
      | Return (c, t) => Return (plan_of c t, db)
      | Raise e => Raise e
      end
    | None =>
      match prepare (words stmt) db with
      | Return (c, t) => Return (run c t db)
      | Raise e => Raise e
      end
    end.

Definition sqlite : Collaborators :=
  {| DB := Database;
     parse := tokenize;
     sqlite_execute := execute;
     sqlite_commit := fun db => Return db;
     wall_clock := fun n => (1000 * Z.of_nat n)%Z |}.

(** The catalog of an initialised database file: the six tables of the schema
    and [sqlite_sequence], which the engine adds for [AUTOINCREMENT] keys.
    Only [users] and [rooms] hold rows here. *)
Definition seeded : Database :=
  [ {| t_name := "users";
       t_columns := ["user_id"; "username"; "email"; "phone"; "created_at"; "last_login"; "is_active"];
       t_rows := [ [("user_id", SqlInt 1); ("username", SqlText "zhang_san");
                    ("email", SqlText "zhangsan@email.com"); ("phone", SqlText "13800138001");
                    ("created_at", SqlText "2025-01-01 08:00:00"); ("is_active", SqlInt 1)];
                   [("user_id", SqlInt 2); ("username", SqlText "li_si");
                    ("email", SqlText "lisi@email.com");
                    ("created_at", SqlText "2025-01-02 09:30:00"); ("is_active", SqlInt 1)] ] |};
    {| t_name := "sqlite_sequence"; t_columns := ["name"; "seq"];
       t_rows := [ [("name", SqlText "users"); ("seq", SqlInt 2)];
                   [("name", SqlText "rooms"); ("seq", SqlInt 1)] ] |};
    {| t_name := "devices";
       t_columns := ["device_id"; "device_name"; "device_type"; "room"; "brand"; "model"; "status";
                     "installed_at"; "last_maintenance"];
       t_rows := [] |};
    {| t_name := "usage_logs";
       t_columns := ["log_id"; "user_id"; "device_id"; "action"; "value"; "timestamp"; "duration_minutes"];
       t_rows := [] |};
    {| t_name := "security_events";
       t_columns := ["event_id"; "device_id"; "event_type"; "severity"; "description"; "timestamp";
                     "handled"; "handled_by"];
       t_rows := [] |};
    {| t_name := "user_feedback";
       t_columns := ["feedback_id"; "user_id"; "device_id"; "rating"; "comment"; "feedback_type";
                     "timestamp"; "status"];
       t_rows := [] |};
    {| t_name := "rooms";
       t_columns := ["room_id"; "room_name"; "floor"; "area_sqm"; "room_type"];
       t_rows := [ [("room_id", SqlInt 1); ("room_name", SqlText "living"); ("floor", SqlInt 1);
                    ("room_type", SqlText "living_room")] ] |} ].

(** The tool after [sqlite3.connect] on the seeded file. *)
Definition connected : Tool (DB sqlite) :=
  {| conn := Some {| database := (seeded : DB sqlite); cursor := idle_cursor; sent := [] |};
     ticks := 0 |}.

(** The tool as [__init__] leaves it: no connection, no cursor. *)
Definition unconnected : Tool (DB sqlite) := {| conn := None; ticks := 0 |}.

(** What [execute_query] returns for [SELECT * FROM rooms] on [connected]. *)
Definition rooms_result : Envelope :=
  {[ "valid" := VBool true;
     "statement_type" := VStr "SELECT";
     "results" := VRows [[SqlInt 1; SqlText "living"; SqlInt 1; SqlNull; SqlText "living_room"]];
     "columns" := VStrList ["room_id"; "room_name"; "floor"; "area_sqm"; "room_type"];
     "row_count" := VInt 1;
     "execution_time" := VSeconds 1000;
     "query_plan" := VRows [[SqlInt 2; SqlInt 0; SqlInt 0; SqlText "SCAN rooms"]] ]}.

End Demo.

(** ** The natural-language translator and the callers of the gateway *)

Module Text.

(** [str.isspace] on the ASCII characters, as [str.strip] uses it. *)
Definition is_space (c : ascii) : bool :=
  let n := nat_of_ascii c in
  (n =? 32)%nat || ((9 <=? n)%nat && (n <=? 13)%nat) || ((28 <=? n)%nat && (n <=? 31)%nat).

(** [str.lstrip()] *)
Fixpoint lstrip (s : string) : string :=
  match s with
  | EmptyString => EmptyString
  | String c r => if is_space c then lstrip r else s
  end.

(** [str.rstrip()] *)
Fixpoint rstrip (s : string) : string :=
  match s with
  | EmptyString => EmptyString
  | String c r =>
    match rstrip r with
    | EmptyString => if is_space c then EmptyString else String c EmptyString
    | r' => String c r'
    end
  end.

(** [str.strip()] *)
Definition strip (s : string) : string := rstrip (lstrip s).

(** [s.startswith(p)] *)
Definition startswith (s p : string) : bool := String.prefix p s.

(** A double quote. *)
Definition dq : string := String (ascii_of_nat 34) EmptyString.

End Text.

(** The two answers of [natural_language_query] that are not SQL. *)
Definition table_not_recognized : string :=
  "无法识别查询的表，请指定用户、设备、使用记录、安防事件、反馈或房间".

Definition only_simple_queries : string :=
  "抱歉，目前只支持简单的查询语句。请尝试使用'查询所有用户'、'显示今天的使用记录'等格式".

(** [natural_language_query].  The dictionary [keyword_mappings] of the source
    is never read and is left out.  [lower] and [strip] act on the ASCII
    characters; every test below looks for a Chinese word, whose bytes
    neither operation touches. *)
Definition natural_language_query (nl_query : string) : string :=
  let nl_query := Text.strip (Str.lower nl_query) in
  if existsb (fun word => Str.contains word nl_query) ["查询"; "查找"; "显示"; "列出"]
  then
    let sql_query := "SELECT " in
    let sql_query :=
      if Str.contains "所有" nl_query then sql_query ++ "* " else sql_query ++ "* " in
    let sql_query := sql_query ++ "FROM " in
    let table :=
      if Str.contains "用户" nl_query then Some "users "
      else if Str.contains "设备" nl_query then Some "devices "
      else if Str.contains "使用记录" nl_query then Some "usage_logs "
      else if Str.contains "安防事件" nl_query then Some "security_events "
      else if Str.contains "反馈" nl_query then Some "user_feedback "
      else if Str.contains "房间" nl_query then Some "rooms "
      else None in
    match table with
    | None => table_not_recognized
    | Some name =>
      let sql_query := sql_query ++ name in
      let conditions : list string :=
        if Str.contains "今天" nl_query
        then ["DATE(timestamp) = DATE(" ++ Text.dq ++ "now" ++ Text.dq ++ ")"]
        else if Str.contains "昨天" nl_query
        then ["DATE(timestamp) = DATE(" ++ Text.dq ++ "now" ++ Text.dq ++ ", "
                ++ Text.dq ++ "-1 day" ++ Text.dq ++ ")"]
        else if Str.contains "本周" nl_query
        then ["timestamp >= DATE(" ++ Text.dq ++ "now" ++ Text.dq ++ ", "
                ++ Text.dq ++ "-7 days" ++ Text.dq ++ ")"]
        else if Str.contains "本月" nl_query
        then ["timestamp >= DATE(" ++ Text.dq ++ "now" ++ Text.dq ++ ", "
                ++ Text.dq ++ "start of month" ++ Text.dq ++ ")"]
        else [] in
      let conditions :=
        if Str.contains "在线" nl_query then (conditions ++ ["status = 'online'"])%list
        else if Str.contains "离线" nl_query then (conditions ++ ["status = 'offline'"])%list
        else conditions in
      let sql_query :=
        match conditions with
        | [] => sql_query
        | _ => sql_query ++ "WHERE " ++ Str.join " AND " conditions
        end in
      sql_query ++ " LIMIT 10"
    end
  else only_simple_queries.

(** What [visualize_results] does before it renders: the two guards at its
    head and the two subscripts between them.  The rendering itself (pandas,
    matplotlib, tabulate) is not modelled. *)
Inductive Visualization :=
| OnlySelect
| NothingToShow
| Rendering (results columns : Value).

(** [not d.get(k)] *)
Definition not_get (d : Envelope) (k : string) : bool :=
  match d !! k with
  | Some v => negb (truthy v)
  | None => true
  end.

(** [d.get(k) != s] for a string literal [s] *)
Definition get_differs (d : Envelope) (k s : string) : bool :=
  match d !! k with
  | Some v => negb (eq_str v s)
  | None => true
  end.

Definition visualize_results (query_result : Envelope) : Outcome Visualization :=
  if not_get query_result "valid" || get_differs query_result "statement_type" "SELECT"
  then Return OnlySelect
  else
    match getitem query_result "results" with
    | Raise e => Raise e
    | Return results =>
      match getitem query_result "columns" with
      | Raise e => Raise e
      | Return columns =>
        if negb (truthy results) then Return NothingToShow
        else Return (Rendering results columns)
      end
    end.

(** The natural-language branch of [main] and of [interactive_mode]:
    the translation is handed to [execute_query] unless it is empty or
    starts with the apology; the result is [None] when nothing was run.
    Printing is left out. *)
Definition run_natural_language {E : Collaborators} (nl_query : string)
  : M E (option Envelope) :=
  let sql_query := natural_language_query nl_query in
  if negb (String.eqb sql_query "") && negb (Text.startswith sql_query "抱歉")
  then result ← execute_query sql_query; mret (Some result)
  else mret None.

(** The clock does not run backwards. *)
Definition clock_monotone (E : Collaborators) : Prop :=
  ∀ n, (wall_clock E n <= wall_clock E (S n))%Z.

(** ** An engine of an older Python

    Before Python 3.12, [sqlite3] answered a text of several statements with
    [sqlite3.Warning], which is not a subclass of [sqlite3.Error]. *)

Module Legacy.

Fixpoint several_statements (ws : list string) : bool :=
  match ws with
  | [] => false
  | w :: rest =>
    if String.eqb w ";"
    then match rest with [] => false | _ => true end
    else several_statements rest
  end.

Definition execute (stmt : string) (db : Demo.Database)
  : Outcome (ResultSet * Demo.Database) :=
  if several_statements (Demo.words stmt)
  then Raise (OtherException "You can only execute one statement at a time.")
  else Demo.execute stmt db.

Definition sqlite : Collaborators :=
  {| DB := Demo.Database;
     parse := Demo.tokenize;
     sqlite_execute := execute;
     sqlite_commit := fun db => Return db;
     wall_clock := fun n => (1000 * Z.of_nat n)%Z |}.

Definition connected : Tool (DB sqlite) :=
  {| conn := Some {| database := (Demo.seeded : DB sqlite); cursor := idle_cursor; sent := [] |};
     ticks := 0 |}.

End Legacy.

(** ** Observations on the callers and the log *)

(** What a call of [validate_sql] may add to the log of statements handed to
    the engine: nothing, the catalog listing, or the listing and the plan
    probe. *)
Definition probes_only (sql_query : string) (before after : list string) : Prop :=
  after = before
  ∨ after = (before ++ [catalog_query])%list
  ∨ after = (before ++ [catalog_query; explain sql_query])%list.

(** The seeded database after [DELETE FROM users]. *)
Definition users_emptied : Demo.Database :=
  map (fun u => if Demo.same_name (Demo.t_name u) "users"
                then {| Demo.t_name := Demo.t_name u; Demo.t_columns := Demo.t_columns u;
                        Demo.t_rows := [] |}
                else u) Demo.seeded.

(** The connection of [Demo.connected] after the catalog listing of
    [validate_sql]. *)
Definition listed : Connection Demo.Database :=
  {| database := Demo.seeded;
     cursor := {| description := Some ["name"]; pending := []; rowcount := (-1)%Z |};
     sent := [catalog_query] |}.

(** The words [natural_language_query] looks for. *)
Definition nl_keywords : list string :=
  ["查询"; "查找"; "显示"; "列出"; "所有"; "用户"; "设备"; "使用记录"; "安防事件"; "反馈"; "房间";
   "今天"; "昨天"; "本周"; "本月"; "在线"; "离线"].

(** A byte of a character outside ASCII. *)
Definition is_high (c : ascii) : bool := (128 <=? nat_of_ascii c)%nat.

Fixpoint all_high (s : string) : bool :=
  match s with
  | EmptyString => true
  | String c r => is_high c && all_high r
  end.

(** The request contains one of the four query verbs. *)
Definition has_query_verb (q : string) : bool :=
  existsb (fun word => Str.contains word q) ["查询"; "查找"; "显示"; "列出"].

(** The request contains one of the six table words. *)
Definition has_table_word (q : string) : bool :=
  existsb (fun word => Str.contains word q) ["用户"; "设备"; "使用记录"; "安防事件"; "反馈"; "房间"].

(** What [run_natural_language] does when it hands [sql_query] on. *)
Definition handed_on {E : Collaborators} (sql_query : string) : M E (option Envelope) :=
  result ← execute_query sql_query; mret (Some result).

(** * Properties *)

(** ** The monad *)

Ltac unfold_m :=
  unfold mbind, mret, M_bind, M_ret, lift, try_except, except_sqlite3_Error,
    except_Exception in *.

(** Reduction of the plumbing only; the dictionaries stay as written. *)
Ltac steps :=
  cbn [fst snd conn database cursor sent ticks description pending rowcount cursor_of
       with_cursor rs_description rs_rows rs_rowcount negb truthy eq_str] in *.

Lemma Return_inj {A : Type} (a b : A) : Return a = Return b → a = b.
Proof. intros H. by injection H. Qed.

(** ** The token tree *)

Lemma Token_nested_ind (P : Token → Prop) :
  (∀ ty text, P (Leaf ty text)) →
  (∀ cls children, Forall P children → P (Group cls children)) →
  ∀ t, P t.
Proof.
  intros HL HG. fix rec 1. intros [ty text | cls children].
  - apply HL.
  - apply HG. induction children as [| c cs IH]; constructor; [apply rec | apply IH].
Qed.

(** [flatten] yields lexer tokens only, and these carry a token type. *)
Lemma flatten_in_leaves t :
  ∀ parent, Forall (fun tp : Token * GroupClass => ttype tp.1 ≠ None) (flatten_in parent t).
Proof.
  induction t as [ty text | cls children IH] using Token_nested_ind; intros parent; simpl.
  - constructor; [discriminate | constructor].
  - induction IH as [| c cs Hc _ IHcs]; simpl; [constructor |].
    apply Forall_app; split; [apply Hc | apply IHcs].
Qed.

Lemma flatten_leaves stmt :
  Forall (fun tp : Token * GroupClass => ttype tp.1 ≠ None) (flatten stmt).
Proof.
  unfold flatten. induction stmt as [| c cs IH]; simpl; [constructor |].
  apply Forall_app; split; [apply flatten_in_leaves | apply IH].
Qed.

(** Whatever the token, a collected name is a word of the vocabulary. *)
Lemma collect_token_vocabulary tp name :
  name ∈ collect_token tp → name ∈ tables.
Proof.
  destruct tp as [token parent]. unfold collect_token.
  destruct (ttype token); [intros H; inversion H |].
  destruct (is_Statement parent); [| intros H; inversion H].
  case_bool_decide as Hin; [| intros H; inversion H].
  intros H. apply list_elem_of_singleton in H. by subst.
Qed.

Lemma collected_vocabulary parsed name :
  name ∈ collected parsed → name ∈ tables.
Proof.
  unfold collected. intros H.
  apply list_elem_of_In, in_flat_map in H as (stmt & _ & H).
  apply in_flat_map in H as (tp & _ & H).
  apply list_elem_of_In in H. by eapply collect_token_vocabulary.
Qed.

(** A token with a token type is never collected, so nothing [flatten]
    yields is. *)
Lemma collect_flatten_nil stmt : flat_map collect_token (flatten stmt) = [].
Proof.
  induction (flatten_leaves stmt) as [| [token parent] tps Hty _ IH]; simpl; [done |].
  rewrite IH. simpl in Hty. destruct (ttype token); [done | congruence].
Qed.

Lemma collected_nil parsed : collected parsed = [].
Proof.
  unfold collected. induction parsed as [| stmt rest IH]; simpl; [done |].
  by rewrite collect_flatten_nil, IH.
Qed.

(** ** [validate_sql], path by path *)

Ltac returns_rejection :=
  match goal with
  | |- ∃ e, (Return ?x, _).1 = Return e ∧ _ =>
    exists x; split;
    [reflexivity
    | left;
      unfold validation_failed, empty_or_unparseable, unrecognized_statement,
        unknown_tables, syntax_probe_failure;
      eexists _, _; reflexivity]
  end.

Ltac returns_acceptance :=
  match goal with
  | |- ∃ e, (Return ?x, _).1 = Return e ∧ _ =>
    exists x; split; [reflexivity | right; eexists _, _; reflexivity]
  end.

Section ValidateFacts.

Context {E : Collaborators}.
Implicit Types (t : Tool (DB E)) (s : string).

Lemma extract_table_names_eq s t :
  _extract_table_names s t =
  (match parse E s with
   | Return parsed => Return (elements (list_to_set (collected parsed) : gset string))
   | Raise e => Raise e
   end, t).
Proof. unfold _extract_table_names. unfold_m. by destruct (parse E s). Qed.

(** [_extract_table_names] leaves the tool alone. *)
Lemma extract_table_names_state s t : (_extract_table_names s t).2 = t.
Proof. by rewrite extract_table_names_eq. Qed.

(** The decision tree of [validate_sql]. *)
Lemma validate_sql_eq s t :
  validate_sql s t =
  match parse E s with
  | Raise e => (Return (validation_failed e), t)
  | Return [] => (Return empty_or_unparseable, t)
  | Return (first_statement :: _) =>
    match token_first true true first_statement with
    | Some (Leaf Keyword_DML text) =>
      match _get_existing_tables t with
      | (Raise e, t1) => (Return (validation_failed e), t1)
      | (Return existing, t1) =>
        match elements (set_difference (referenced_tables s t) existing) with
        | name :: names =>
          match join_items existing with
          | Return existing_names =>
            (Return (unknown_tables (name :: names) existing_names), t1)
          | Raise e => (Return (validation_failed e), t1)
          end
        | [] =>
          if String.eqb (Str.upper text) "SELECT"
          then match cursor_execute (explain s) t1 with
               | (Return _, t2) =>
                 (Return (acceptance (Str.upper text) (referenced_tables s t)), t2)
               | (Raise (SqliteError msg), t2) => (Return (syntax_probe_failure msg), t2)
               | (Raise (OtherException msg), t2) =>
                 (Return (validation_failed (OtherException msg)), t2)
               end
          else (Return (acceptance (Str.upper text) (referenced_tables s t)), t1)
        end
      end
    | _ => (Return unrecognized_statement, t)
    end
  end.
Proof.
  unfold validate_sql, validate_sql_body, referenced_tables.
  unfold validation_failed, empty_or_unparseable, unrecognized_statement, unknown_tables,
    syntax_probe_failure, acceptance, rejection.
  pose proof (extract_table_names_eq s t) as Hx.
  unfold_m.
  destruct (parse E s) as [[| first_statement rest] | e]; [reflexivity | | reflexivity].
  destruct (token_first true true first_statement) as [[ty text | cls children] |];
    [| reflexivity | reflexivity].
  destruct ty; try reflexivity.
  rewrite Hx. steps.
  destruct (_get_existing_tables t) as [[existing | e] t1]; [| reflexivity].
  destruct (elements (set_difference _ _)) as [| name names].
  - destruct (String.eqb (Str.upper text) "SELECT"); [| reflexivity].
    destruct (cursor_execute (explain s) t1) as [[[] | [msg | msg]] t2]; reflexivity.
  - destruct (join_items existing); reflexivity.
Qed.

(** Entries of the two kinds of dictionary. *)
Lemma rejection_valid error suggestion :
  rejection error suggestion !! "valid" = Some (VBool false).
Proof. reflexivity. Qed.

Lemma rejection_error error suggestion :
  rejection error suggestion !! "error" = Some (VStr error).
Proof. reflexivity. Qed.

Lemma rejection_suggestion error suggestion :
  rejection error suggestion !! "suggestion" = Some (VStr suggestion).
Proof. reflexivity. Qed.

Lemma rejection_keys error suggestion k :
  k ≠ "valid" → k ≠ "error" → k ≠ "suggestion" → rejection error suggestion !! k = None.
Proof.
  intros H1 H2 H3. unfold rejection.
  rewrite !lookup_insert_ne by done. apply lookup_singleton_ne. done.
Qed.

Lemma acceptance_valid statement_type table_names :
  acceptance statement_type table_names !! "valid" = Some (VBool true).
Proof. reflexivity. Qed.

Lemma acceptance_statement_type statement_type table_names :
  acceptance statement_type table_names !! "statement_type" = Some (VStr statement_type).
Proof. reflexivity. Qed.

Lemma acceptance_tables statement_type table_names :
  acceptance statement_type table_names !! "tables" = Some (VStrList table_names).
Proof. reflexivity. Qed.

(** The set difference, by membership. *)
Lemma elem_of_set_difference table_names existing name :
  name ∈ elements (set_difference table_names existing)
  ↔ name ∈ table_names ∧ SqlText name ∉ existing.
Proof.
  unfold set_difference.
  rewrite elem_of_elements, elem_of_filter, elem_of_list_to_set. tauto.
Qed.

Lemma set_difference_nil table_names existing :
  elements (set_difference table_names existing) = []
  ↔ ∀ name, name ∈ table_names → SqlText name ∈ existing.
Proof.
  split.
  - intros Hnil name Hin.
    destruct (decide (SqlText name ∈ existing)) as [| Hout]; [done |].
    assert (name ∈ elements (set_difference table_names existing)) as H
      by (apply elem_of_set_difference; done).
    rewrite Hnil in H. inversion H.
  - intros Hall.
    destruct (elements (set_difference table_names existing)) as [| name names] eqn:Hd; [done |].
    assert (name ∈ elements (set_difference table_names existing)) as H
      by (rewrite Hd; left).
    apply elem_of_set_difference in H as [Hin Hout]. destruct Hout. by apply Hall.
Qed.

(** Only words of the vocabulary are ever referenced. *)
Lemma referenced_tables_vocabulary s t name :
  name ∈ referenced_tables s t → name ∈ tables.
Proof.
  unfold referenced_tables. rewrite extract_table_names_eq. simpl.
  destruct (parse E s) as [parsed | e]; [| intros H; inversion H].
  rewrite elem_of_elements, elem_of_list_to_set. apply collected_vocabulary.
Qed.

(** No token that [flatten] yields passes the test of the loop, so the list
    of referenced tables is empty. *)
Lemma referenced_tables_nil s t : referenced_tables s t = [].
Proof.
  unfold referenced_tables. rewrite extract_table_names_eq. simpl.
  destruct (parse E s) as [parsed | e]; [| done].
  rewrite collected_nil. simpl. apply elements_empty.
Qed.

(** [validate_sql] always returns one of its two kinds of dictionary. *)
Lemma validate_sql_returns s t :
  ∃ e, (validate_sql s t).1 = Return e
       ∧ ((∃ error suggestion, e = rejection error suggestion)
          ∨ (∃ statement_type table_names, e = acceptance statement_type table_names)).
Proof.
  rewrite validate_sql_eq.
  destruct (parse E s) as [[| first_statement rest] | e]; [returns_rejection | | returns_rejection].
  destruct (token_first true true first_statement) as [[ty text | cls children] |];
    [| returns_rejection ..].
  destruct ty; try returns_rejection.
  destruct (_get_existing_tables t) as [[existing | e] t1]; [| returns_rejection].
  destruct (elements (set_difference _ _)) as [| name names].
  - destruct (String.eqb (Str.upper text) "SELECT"); [| returns_acceptance].
    destruct (cursor_execute (explain s) t1) as [[[] | [msg | msg]] t2];
      [returns_acceptance | returns_rejection ..].
  - destruct (join_items existing); returns_rejection.
Qed.

End ValidateFacts.

(** ** The demo tokenizer on blank text *)

Lemma demo_single_space c :
  Str.is_space c = true →
  Demo.is_word_char c = false
  ∧ is_whitespace (Demo.single c) = true
  ∧ Demo.is_semicolon (Demo.single c) = false.
Proof.
  destruct c as [[] [] [] [] [] [] [] []]; vm_compute; intros H;
    try discriminate H; tauto.
Qed.

Lemma demo_lex_blank s :
  Str.blank s = true →
  Forall (fun tk => is_whitespace tk = true ∧ Demo.is_semicolon tk = false)
         (Demo.lex s EmptyString).
Proof.
  induction s as [| c r IH]; simpl; [constructor |].
  intros [Hc Hr]%andb_prop.
  destruct (demo_single_space c Hc) as (Hw & Hws & Hsemi).
  rewrite Hw. simpl. constructor; [done | by apply IH].
Qed.

Lemma demo_split_blank toks :
  Forall (fun tk => is_whitespace tk = true ∧ Demo.is_semicolon tk = false) toks →
  ∀ current, forallb is_whitespace current = true → Demo.split toks current false = [].
Proof.
  induction 1 as [| tk rest [Hws Hsemi] _ IH]; intros current Hcur; simpl.
  - by rewrite Hcur.
  - rewrite Hsemi. apply IH. rewrite forallb_app, Hcur. simpl. by rewrite Hws.
Qed.

(** The demo tokenizer keeps the contract [drops_blank]. *)
Lemma demo_drops_blank : drops_blank Demo.sqlite.
Proof.
  intros s Hs. simpl. unfold Demo.tokenize.
  by rewrite (demo_split_blank _ (demo_lex_blank s Hs) []).
Qed.

(** ** Totality of [validate_sql] *)

(** C10: for every input and every state of the tool, the unconnected one
    included, [validate_sql] returns a dictionary that has a boolean under
    ['valid']; it never raises, whatever the tokenizer or the engine raised
    inside. *)
Theorem validate_sql_total (E : Collaborators) (sql_query : string) (t : Tool (DB E)) :
  ∃ (e : Envelope) (b : bool),
    (validate_sql sql_query t).1 = Return e ∧ e !! "valid" = Some (VBool b).
Proof.
  destruct (validate_sql_returns sql_query t) as (e & He & [(err & sug & ->) | (k & names & ->)]).
  - exists (rejection err sug), false. split; [done | apply rejection_valid].
  - exists (acceptance k names), true. split; [done | apply acceptance_valid].
Qed.

(** ** Empty and unparseable input *)

(** C5: with a tokenizer that yields no statement for empty and
    whitespace-only text, every input that is empty, whitespace-only or
    parses to zero statements gets the empty-or-unparseable dictionary, and
    the tool is left as it was. *)
Theorem validate_sql_empty_or_unparseable (E : Collaborators) (sql_query : string) (t : Tool (DB E)) :
  drops_blank E →
  Str.blank sql_query = true ∨ parse E sql_query = Return [] →
  validate_sql sql_query t = (Return empty_or_unparseable, t).
Proof.
  intros Hlib Hs.
  assert (parse E sql_query = Return []) as Hparse by (destruct Hs; [by apply Hlib | done]).
  by rewrite validate_sql_eq, Hparse.
Qed.

Lemma validate_sql_empty_or_unparseable_witness :
  drops_blank Demo.sqlite
  ∧ Str.blank "   " = true
  ∧ validate_sql "   " Demo.connected = (Return empty_or_unparseable, Demo.connected).
Proof.
  split; [exact demo_drops_blank |].
  split; [reflexivity |].
  apply (validate_sql_empty_or_unparseable Demo.sqlite "   " Demo.connected demo_drops_blank).
  left. reflexivity.
Defined.

(** ** The vocabulary test *)

Lemma user_not_in_vocabulary : "user" ∉ @tables.
Proof.
  unfold tables. intros H.
  repeat (apply elem_of_cons in H as [H | H]; [discriminate H |]).
  inversion H.
Qed.

(** C9: whatever the input, the name [user], a strict substring of the table
    name [users], is neither collected as a referenced table nor part of the
    set of unknown names: the loop collects a token only when its lower-cased
    text equals a word of the vocabulary. *)
Theorem user_never_referenced (E : Collaborators) (sql_query : string) (t : Tool (DB E))
    (existing : list SqlValue) :
  ("user" ∉ referenced_tables sql_query t)
  ∧ ("user" ∉ elements (set_difference (referenced_tables sql_query t) existing)).
Proof.
  assert ("user" ∉ referenced_tables sql_query t) as Hout.
  { intros Hin%referenced_tables_vocabulary. by apply user_not_in_vocabulary. }
  split; [done |].
  intros [Hin _]%elem_of_set_difference. done.
Qed.

(** ** [execute_query] after a failed validation *)

(** C6: when [validate_sql] reports [valid = False], [execute_query] returns
    that very dictionary and leaves the tool in the state validation left it
    in, so nothing more was handed to the engine (the log [sent] and the
    database content are those of validation); the dictionary has no entry
    under ['results'], ['columns'], ['row_count'] or ['affected_rows']. *)
Theorem execute_query_rejected (E : Collaborators) (sql_query : string) (t t' : Tool (DB E))
    (e : Envelope) :
  validate_sql sql_query t = (Return e, t') →
  e !! "valid" = Some (VBool false) →
  execute_query sql_query t = (Return e, t')
  ∧ e !! "results" = None
  ∧ e !! "columns" = None
  ∧ e !! "row_count" = None
  ∧ e !! "affected_rows" = None.
Proof.
  intros Hv Hvalid. split.
  - unfold execute_query, getitem. unfold_m. rewrite Hv, Hvalid. reflexivity.
  - destruct (validate_sql_returns sql_query t) as (e' & He' & Hshape).
    rewrite Hv in He'. simpl in He'. injection He' as <-.
    destruct Hshape as [(err & sug & ->) | (k & names & ->)].
    + repeat split; by apply rejection_keys.
    + rewrite acceptance_valid in Hvalid. discriminate Hvalid.
Qed.

Lemma execute_query_rejected_witness :
  validate_sql "DROP TABLE users" Demo.connected = (Return unrecognized_statement, Demo.connected)
  ∧ unrecognized_statement !! "valid" = Some (VBool false)
  ∧ execute_query "DROP TABLE users" Demo.connected
    = (Return unrecognized_statement, Demo.connected).
Proof.
  assert (validate_sql "DROP TABLE users" Demo.connected
          = (Return unrecognized_statement, Demo.connected)) as Hv by (vm_compute; reflexivity).
  split; [exact Hv |].
  split; [reflexivity |].
  exact (proj1 (execute_query_rejected Demo.sqlite "DROP TABLE users" Demo.connected
                  Demo.connected unrecognized_statement Hv eq_refl)).
Defined.

(** ** The list of referenced tables *)

(** C3: whenever [validate_sql] accepts a statement, the list it stores under
    ['tables'] is empty, because [flatten] yields only tokens that carry a
    token type and the loop looks for tokens without one; so for
    [SELECT * FROM users] the referenced tables are not [users]. *)
Theorem validate_sql_tables_empty (E : Collaborators) (sql_query : string) (t : Tool (DB E))
    (e : Envelope) :
  (validate_sql sql_query t).1 = Return e →
  e !! "valid" = Some (VBool true) →
  e !! "tables" = Some (VStrList []).
Proof.
  intros He Hvalid. rewrite validate_sql_eq, referenced_tables_nil in He.
  destruct (parse E sql_query) as [[| first_statement rest] | x];
    try (injection He as <-; discriminate Hvalid).
  destruct (token_first true true first_statement) as [[ty text | cls children] |];
    try (injection He as <-; discriminate Hvalid).
  destruct ty; try (injection He as <-; discriminate Hvalid).
  destruct (_get_existing_tables t) as [[existing | x] t1];
    try (injection He as <-; discriminate Hvalid).
  destruct (elements (set_difference _ _)) as [| name names].
  - destruct (String.eqb (Str.upper text) "SELECT").
    + destruct (cursor_execute (explain sql_query) t1) as [[[] | [msg | msg]] t2];
        injection He as <-; [reflexivity | discriminate Hvalid ..].
    + injection He as <-. reflexivity.
  - destruct (join_items existing); injection He as <-; discriminate Hvalid.
Qed.

Lemma validate_sql_tables_empty_witness :
  (validate_sql "SELECT * FROM users" Demo.connected).1 = Return (acceptance "SELECT" [])
  ∧ acceptance "SELECT" [] !! "valid" = Some (VBool true)
  ∧ acceptance "SELECT" [] !! "tables" = Some (VStrList []).
Proof.
  assert ((validate_sql "SELECT * FROM users" Demo.connected).1 = Return (acceptance "SELECT" []))
    as Hv by (vm_compute; reflexivity).
  split; [exact Hv |].
  split; [reflexivity |].
  exact (validate_sql_tables_empty Demo.sqlite "SELECT * FROM users" Demo.connected
           (acceptance "SELECT" []) Hv eq_refl).
Defined.

(** ** Determinism of [validate_sql] *)

Section Determinism.

Context {E : Collaborators}.
Implicit Types (t : Tool (DB E)) (s : string).

Lemma same_database_refl t : same_database t t.
Proof. reflexivity. Qed.

Lemma same_database_sym t t' : same_database t t' → same_database t' t.
Proof. unfold same_database. congruence. Qed.

Lemma same_database_trans t t' t'' :
  same_database t t' → same_database t' t'' → same_database t t''.
Proof. unfold same_database. congruence. Qed.

(** The list of referenced tables does not depend on the tool. *)
Lemma referenced_tables_state s t t' : referenced_tables s t = referenced_tables s t'.
Proof. unfold referenced_tables. by rewrite !extract_table_names_eq. Qed.

(** A statement run on the same content gives the same outcome and the same
    new content, whatever the cursor held before. *)
Lemma cursor_execute_same stmt t t' :
  same_database t t' →
  (cursor_execute stmt t).1 = (cursor_execute stmt t').1
  ∧ same_database (cursor_execute stmt t).2 (cursor_execute stmt t').2.
Proof.
  unfold same_database, cursor_execute. intros Hdb.
  destruct (conn t) as [c |] eqn:Hc, (conn t') as [c' |] eqn:Hc'; simpl in Hdb;
    try discriminate Hdb; [| simpl; rewrite Hc, Hc'; split; reflexivity].
  injection Hdb as ->.
  destruct (sqlite_execute E stmt (database c')) as [[rs db'] | x]; split; reflexivity.
Qed.

Lemma get_existing_tables_same t t' :
  same_database t t' →
  (_get_existing_tables t).1 = (_get_existing_tables t').1
  ∧ same_database (_get_existing_tables t).2 (_get_existing_tables t').2.
Proof.
  unfold same_database, _get_existing_tables, cursor_execute, cursor_fetchall. unfold_m.
  intros Hdb.
  destruct (conn t) as [c |] eqn:Hc, (conn t') as [c' |] eqn:Hc'; simpl in Hdb;
    try discriminate Hdb; [| simpl; rewrite Hc, Hc'; split; reflexivity].
  injection Hdb as ->.
  destruct (sqlite_execute E catalog_query (database c')) as [[rs db'] | x];
    split; reflexivity.
Qed.

(** The outcome of [validate_sql] is a function of the text and of the
    database content: the cursor, the log and the clock do not matter. *)
Lemma validate_sql_same_database s t t' :
  same_database t t' → (validate_sql s t).1 = (validate_sql s t').1.
Proof.
  intros Hdb. rewrite !validate_sql_eq, (referenced_tables_state s t t').
  destruct (parse E s) as [[| first_statement rest] | x]; [done | | done].
  destruct (token_first true true first_statement) as [[ty text | cls children] |];
    [| done | done].
  destruct ty; try done.
  destruct (get_existing_tables_same t t' Hdb) as [Hout Hdb1].
  destruct (_get_existing_tables t) as [o1 t1], (_get_existing_tables t') as [o1' t1'].
  simpl in Hout, Hdb1. subst o1'.
  destruct o1 as [existing | x]; [| done].
  destruct (elements (set_difference _ _)) as [| name names].
  - destruct (String.eqb (Str.upper text) "SELECT"); [| done].
    destruct (cursor_execute_same (explain s) t1 t1' Hdb1) as [Hout2 _].
    destruct (cursor_execute (explain s) t1) as [o2 t2],
             (cursor_execute (explain s) t1') as [o2' t2'].
    simpl in Hout2. subst o2'. by destruct o2 as [[] | [msg | msg]].
  - by destruct (join_items existing).
Qed.

(** With an engine whose probes are read-only, [validate_sql] leaves the
    database content as it found it. *)
Lemma cursor_execute_read_only stmt t :
  read_only_probes E →
  stmt = catalog_query ∨ (∃ q, stmt = explain q) →
  same_database (cursor_execute stmt t).2 t.
Proof.
  intros Hro Hstmt. unfold same_database, cursor_execute.
  destruct (conn t) as [c |] eqn:Hc; [| simpl; by rewrite Hc].
  destruct (sqlite_execute E stmt (database c)) as [[rs db'] | x] eqn:Hrun; simpl; [| done].
  by rewrite (Hro stmt (database c) rs db' Hstmt Hrun).
Qed.

Lemma get_existing_tables_read_only t :
  read_only_probes E → same_database (_get_existing_tables t).2 t.
Proof.
  intros Hro.
  pose proof (cursor_execute_read_only catalog_query t Hro (or_introl eq_refl)) as Hx.
  revert Hx.
  unfold same_database, _get_existing_tables, cursor_execute, cursor_fetchall. unfold_m.
  destruct (conn t) as [c |] eqn:Hc; [| simpl; by rewrite Hc].
  destruct (sqlite_execute E catalog_query (database c)) as [[rs db'] | x]; simpl; [| done].
  by destruct (first_column (rs_rows rs)).
Qed.

Lemma validate_sql_read_only s t :
  read_only_probes E → same_database (validate_sql s t).2 t.
Proof.
  intros Hro. rewrite validate_sql_eq.
  destruct (parse E s) as [[| first_statement rest] | x]; [done | | done].
  destruct (token_first true true first_statement) as [[ty text | cls children] |];
    [| done | done].
  destruct ty; try done.
  pose proof (get_existing_tables_read_only t Hro) as H1.
  destruct (_get_existing_tables t) as [[existing | x] t1]; simpl in H1; [| done].
  destruct (elements (set_difference _ _)) as [| name names].
  - destruct (String.eqb (Str.upper text) "SELECT"); [| done].
    pose proof (cursor_execute_read_only (explain s) t1 Hro
                  (or_intror (ex_intro _ s eq_refl))) as H2.
    destruct (cursor_execute (explain s) t1) as [[[] | [msg | msg]] t2]; simpl in H2;
      by eapply same_database_trans.
  - by destruct (join_items existing).
Qed.

End Determinism.

(** C7: a second call of [validate_sql] on the same text, made right after
    the first one on a database whose content the first call left unchanged,
    returns the same outcome as the first. *)
Theorem validate_sql_twice (E : Collaborators) (sql_query : string) (t : Tool (DB E)) :
  same_database t (validate_sql sql_query t).2 →
  (validate_sql sql_query (validate_sql sql_query t).2).1 = (validate_sql sql_query t).1.
Proof.
  intros Hdb. symmetry. by apply validate_sql_same_database.
Qed.

Lemma validate_sql_twice_witness :
  same_database Demo.connected (validate_sql "SELECT * FROM users" Demo.connected).2
  ∧ (validate_sql "SELECT * FROM users"
       (validate_sql "SELECT * FROM users" Demo.connected).2).1
    = (validate_sql "SELECT * FROM users" Demo.connected).1.
Proof.
  assert (same_database Demo.connected (validate_sql "SELECT * FROM users" Demo.connected).2)
    as Hdb by (vm_compute; reflexivity).
  split; [exact Hdb |].
  exact (validate_sql_twice Demo.sqlite "SELECT * FROM users" Demo.connected Hdb).
Defined.

(** ** Results of a [SELECT] *)

(** C8: with an engine whose rows are as long as the description of the
    result, every successful [SELECT] result of [execute_query] has a
    ['row_count'] equal to the number of rows under ['results'], and every
    one of these rows is as long as the list under ['columns']. *)
Theorem execute_query_select_counts (E : Collaborators) (sql_query : string) (t : Tool (DB E))
    (e : Envelope) :
  rows_match_description E →
  (execute_query sql_query t).1 = Return e →
  e !! "valid" = Some (VBool true) →
  e !! "statement_type" = Some (VStr "SELECT") →
  ∃ results columns,
    e !! "results" = Some (VRows results)
    ∧ e !! "columns" = Some (VStrList columns)
    ∧ e !! "row_count" = Some (VInt (Z.of_nat (length results)))
    ∧ Forall (fun row : Row => length row = length columns) results.
Proof.
  intros Hlib He Hvalid Hkind.
  destruct (validate_sql_returns sql_query t) as (v & Hv & Hshape).
  unfold execute_query, getitem in He. unfold_m.
  destruct (validate_sql sql_query t) as [o t0]. steps. subst o.
  destruct Hshape as [(err & sug & ->) | (k & names & ->)].
  - rewrite rejection_valid in He. steps. injection He as <-.
    rewrite rejection_valid in Hvalid. discriminate Hvalid.
  - rewrite acceptance_valid, acceptance_statement_type in He. steps.
    unfold now in He at 1. steps.
    destruct (String.eqb k "SELECT") eqn:Hk.
    + unfold run_select, cursor_execute, cursor_fetchall, cursor_column_names, now in He.
      unfold_m. steps.
      destruct (conn t0) as [c |]; [| discriminate He].
      destruct (sqlite_execute E (explain sql_query) (database c)) as [[plan db1] | [msg | msg]];
        steps;
        [| injection He as <-; discriminate Hvalid | discriminate He].
      destruct (sqlite_execute E sql_query db1) as [[rs db2] | [msg | msg]] eqn:Hrun;
        steps;
        [| injection He as <-; discriminate Hvalid | discriminate He].
      destruct (rs_description rs) as [columns |] eqn:Hdesc; steps; [| discriminate He].
      injection He as <-.
      exists (rs_rows rs), columns. repeat split; try reflexivity.
      by apply (Hlib _ _ _ _ Hrun).
    + apply String.eqb_neq in Hk.
      unfold run_other, cursor_execute, conn_commit, cursor_rowcount, now, getitem in He.
      unfold_m. steps.
      destruct (conn t0) as [c |]; [| discriminate He].
      destruct (sqlite_execute E sql_query (database c)) as [[rs db1] | [msg | msg]];
        steps;
        [| injection He as <-; discriminate Hvalid | discriminate He].
      destruct (sqlite_commit E db1) as [db2 | [msg | msg]]; steps;
        [| injection He as <-; discriminate Hvalid | discriminate He].
      rewrite acceptance_statement_type in He. steps.
      injection He as <-.
      exfalso. apply Hk.
      rewrite lookup_insert_ne, lookup_insert_eq in Hkind by done.
      by injection Hkind.
Qed.

(** The demo engine keeps the contract [rows_match_description]. *)
Lemma demo_rows_match : rows_match_description Demo.sqlite.
Proof.
  intros stmt db rs db' Hrun names Hdesc.
  change (Demo.execute stmt db = Return (rs, db')) in Hrun.
  unfold Demo.execute in Hrun.
  destruct (String.eqb stmt catalog_query).
  { injection Hrun as <- <-. injection Hdesc as <-.
    unfold Demo.catalog, rs_rows. apply Forall_map, Forall_true. done. }
  destruct (Demo.strip_explain (Demo.words stmt)) as [ws |].
  - destruct (Demo.prepare ws db) as [[c tb] | x]; [| discriminate Hrun].
    injection Hrun as <- <-. injection Hdesc as <-.
    destruct c; unfold Demo.plan_of, rs_rows; repeat constructor.
  - destruct (Demo.prepare (Demo.words stmt) db) as [[c tb] | x]; [| discriminate Hrun].
    destruct c; injection Hrun as <- <-; try discriminate Hdesc.
    injection Hdesc as <-. unfold rs_rows.
    apply Forall_map, Forall_true. intros r. by rewrite length_map.
Qed.

Lemma execute_query_select_counts_witness :
  rows_match_description Demo.sqlite
  ∧ (execute_query "SELECT * FROM rooms" Demo.connected).1 = Return Demo.rooms_result
  ∧ Demo.rooms_result !! "valid" = Some (VBool true)
  ∧ Demo.rooms_result !! "statement_type" = Some (VStr "SELECT")
  ∧ ∃ results columns,
      Demo.rooms_result !! "results" = Some (VRows results)
      ∧ Demo.rooms_result !! "columns" = Some (VStrList columns)
      ∧ Demo.rooms_result !! "row_count" = Some (VInt (Z.of_nat (length results)))
      ∧ Forall (fun row : Row => length row = length columns) results.
Proof.
  assert ((execute_query "SELECT * FROM rooms" Demo.connected).1 = Return Demo.rooms_result)
    as He by (vm_compute; reflexivity).
  split; [exact demo_rows_match |].
  split; [exact He |]. split; [reflexivity |]. split; [reflexivity |].
  exact (execute_query_select_counts Demo.sqlite "SELECT * FROM rooms" Demo.connected
           Demo.rooms_result demo_rows_match He eq_refl eq_refl).
Defined.

(** ** When [validate_sql] accepts *)

Section Acceptance.

Context {E : Collaborators}.
Implicit Types (t : Tool (DB E)) (s : string).

Lemma statement_kind_Some s k :
  statement_kind E s = Some k →
  ∃ first_statement rest text,
    parse E s = Return (first_statement :: rest)
    ∧ token_first true true first_statement = Some (Leaf Keyword_DML text)
    ∧ k = Str.upper text.
Proof.
  unfold statement_kind, first_token.
  destruct (parse E s) as [[| first_statement rest] | x]; try discriminate.
  destruct (token_first true true first_statement) as [[ty text | cls children] |] eqn:Hfirst;
    try discriminate.
  destruct ty; try discriminate.
  intros [= <-]. exists first_statement, rest, text. repeat split; [exact Hfirst].
Qed.

Lemma statement_kind_None s first_statement rest :
  parse E s = Return (first_statement :: rest) →
  statement_kind E s = None →
  ∀ text, token_first true true first_statement ≠ Some (Leaf Keyword_DML text).
Proof.
  unfold statement_kind, first_token. intros -> Hkind text Hfirst.
  rewrite Hfirst in Hkind. discriminate Hkind.
Qed.

(** The path of [validate_sql] past the kind test. *)
Lemma validate_sql_dml s t k :
  statement_kind E s = Some k →
  (validate_sql s t).1 =
  match _get_existing_tables t with
  | (Raise e, _) => Return (validation_failed e)
  | (Return existing, t1) =>
    match elements (set_difference (referenced_tables s t) existing) with
    | name :: names =>
      match join_items existing with
      | Return existing_names => Return (unknown_tables (name :: names) existing_names)
      | Raise e => Return (validation_failed e)
      end
    | [] =>
      if String.eqb k "SELECT"
      then match (cursor_execute (explain s) t1).1 with
           | Return _ => Return (acceptance k (referenced_tables s t))
           | Raise (SqliteError msg) => Return (syntax_probe_failure msg)
           | Raise (OtherException msg) => Return (validation_failed (OtherException msg))
           end
      else Return (acceptance k (referenced_tables s t))
    end
  end.
Proof.
  intros (first_statement & rest & text & Hparse & Hfirst & ->)%statement_kind_Some.
  rewrite validate_sql_eq, Hparse, Hfirst.
  destruct (_get_existing_tables t) as [[existing | x] t1]; [| reflexivity].
  destruct (elements (set_difference _ _)) as [| name names].
  - destruct (String.eqb (Str.upper text) "SELECT"); [| reflexivity].
    destruct (cursor_execute (explain s) t1) as [[[] | [msg | msg]] t2]; reflexivity.
  - destruct (join_items existing); reflexivity.
Qed.

End Acceptance.

(** C1: [validate_sql] reports [valid = True] exactly when the first token of
    the first statement is a DML keyword, the list of existing tables can be
    read, every referenced table is in that list and, for a [SELECT], the
    engine accepts [EXPLAIN QUERY PLAN] of the text. *)
Theorem validate_sql_valid_iff (E : Collaborators) (sql_query : string) (t : Tool (DB E)) :
  reports (validate_sql sql_query t) true ↔
  ∃ k existing,
    statement_kind E sql_query = Some k
    ∧ (_get_existing_tables t).1 = Return existing
    ∧ (∀ name, name ∈ referenced_tables sql_query t → SqlText name ∈ existing)
    ∧ (k = "SELECT" →
       (cursor_execute (explain sql_query) (_get_existing_tables t).2).1 = Return ()).
Proof.
  unfold reports. split.
  - intros (e & He & Hvalid).
    destruct (statement_kind E sql_query) as [k |] eqn:Hkind.
    + rewrite (validate_sql_dml _ _ _ Hkind) in He.
      exists k.
      destruct (_get_existing_tables t) as [[existing | x] t1]; steps;
        [| injection He as <-; discriminate Hvalid].
      exists existing. split; [done |]. split; [done |].
      destruct (elements (set_difference _ _)) as [| name names] eqn:Hd.
      * split; [by apply set_difference_nil |].
        intros ->. rewrite String.eqb_refl in He.
        destruct (cursor_execute (explain sql_query) t1) as [[[] | [msg | msg]] t2]; steps;
          [done | injection He as <-; discriminate Hvalid ..].
      * destruct (join_items existing); injection He as <-; discriminate Hvalid.
    + exfalso. rewrite validate_sql_eq in He. revert Hkind.
      unfold statement_kind, first_token.
      destruct (parse E sql_query) as [[| first_statement rest] | x];
        try (injection He as <-; discriminate Hvalid).
      destruct (token_first true true first_statement) as [[ty text | cls children] |];
        try (injection He as <-; discriminate Hvalid).
      destruct ty; try (injection He as <-; discriminate Hvalid).
      discriminate.
  - intros (k & existing & Hkind & Hex & Hknown & Hprobe).
    rewrite (validate_sql_dml _ _ _ Hkind).
    destruct (_get_existing_tables t) as [o1 t1]. steps. subst o1.
    apply set_difference_nil in Hknown. rewrite Hknown.
    destruct (String.eqb k "SELECT") eqn:Hk.
    + apply String.eqb_eq in Hk. rewrite (Hprobe Hk).
      eexists. split; [reflexivity | apply acceptance_valid].
    + eexists. split; [reflexivity | apply acceptance_valid].
Qed.

(** A [SELECT] over known tables that the engine's probe turns down: the kind
    is one of the four and no referenced table is unknown, yet the statement
    is not valid. *)
Lemma validity_invariant_fails :
  ¬ validity_invariant (E := Demo.sqlite) "SELECT FROM users" Demo.connected.
Proof.
  intros [_ Hback].
  assert ((validate_sql "SELECT FROM users" Demo.connected).1
          = Return (syntax_probe_failure (exn_str (Demo.syntax_error_near "FROM"))))
    as Hv by (vm_compute; reflexivity).
  destruct Hback as (e & He & Hvalid).
  - split.
    + exists "SELECT". split; [vm_compute; reflexivity | left].
    + rewrite referenced_tables_nil. intros name Hin. inversion Hin.
  - rewrite Hv in He. injection He as <-. discriminate Hvalid.
Qed.

(** ** Tables that do not exist *)

(** C2: a [SELECT] whose referenced tables all exist and which the engine's
    plan probe turns down with [sqlite3.Error] is reported invalid with the
    engine's message after the syntax-error prefix and the fixed advice to
    check names and syntax; a table name outside the vocabulary, which is
    never a referenced table, is reported in this way and the known tables
    are not listed. *)
Theorem validate_sql_probe_rejection (E : Collaborators) (sql_query : string) (t : Tool (DB E))
    (existing : list SqlValue) (msg : string) :
  statement_kind E sql_query = Some "SELECT" →
  (_get_existing_tables t).1 = Return existing →
  (∀ name, name ∈ referenced_tables sql_query t → SqlText name ∈ existing) →
  (cursor_execute (explain sql_query) (_get_existing_tables t).2).1 = Raise (SqliteError msg) →
  (validate_sql sql_query t).1 = Return (syntax_probe_failure msg).
Proof.
  intros Hkind Hex Hknown Hprobe.
  rewrite (validate_sql_dml _ _ _ Hkind).
  destruct (_get_existing_tables t) as [o1 t1]. steps. subst o1.
  apply set_difference_nil in Hknown. rewrite Hknown, Hprobe. reflexivity.
Qed.

Lemma validate_sql_probe_rejection_witness :
  statement_kind Demo.sqlite "SELECT * FROM ghosts" = Some "SELECT"
  ∧ (_get_existing_tables Demo.connected).1
    = Return (map (fun tb => SqlText (Demo.t_name tb)) Demo.seeded)
  ∧ (cursor_execute (explain "SELECT * FROM ghosts") (_get_existing_tables Demo.connected).2).1
    = Raise (SqliteError "no such table: ghosts")
  ∧ (validate_sql "SELECT * FROM ghosts" Demo.connected).1
    = Return (syntax_probe_failure "no such table: ghosts")
  ∧ Str.contains "ghosts" (text_at (syntax_probe_failure "no such table: ghosts") "error") = true.
Proof.
  assert (statement_kind Demo.sqlite "SELECT * FROM ghosts" = Some "SELECT") as Hkind
    by (vm_compute; reflexivity).
  assert ((_get_existing_tables Demo.connected).1
          = Return (map (fun tb => SqlText (Demo.t_name tb)) Demo.seeded)) as Hex
    by (vm_compute; reflexivity).
  assert ((cursor_execute (explain "SELECT * FROM ghosts")
             (_get_existing_tables Demo.connected).2).1
          = Raise (SqliteError "no such table: ghosts")) as Hprobe
    by (vm_compute; reflexivity).
  split; [exact Hkind |]. split; [exact Hex |]. split; [exact Hprobe |].
  split; [| vm_compute; reflexivity].
  apply (validate_sql_probe_rejection Demo.sqlite "SELECT * FROM ghosts" Demo.connected
           (map (fun tb => SqlText (Demo.t_name tb)) Demo.seeded) "no such table: ghosts"
           Hkind Hex); [| exact Hprobe].
  rewrite referenced_tables_nil. intros name Hin. inversion Hin.
Defined.

(** For [SELECT * FROM ghosts] the report names [ghosts], but its suggestion
    is the fixed advice and lists none of the known tables. *)
Lemma unknown_table_report_fails :
  ¬ unknown_table_report (E := Demo.sqlite) "SELECT * FROM ghosts" Demo.connected ["ghosts"].
Proof.
  intros (e & He & _ & _ & Hsug).
  assert ((validate_sql "SELECT * FROM ghosts" Demo.connected).1
          = Return (syntax_probe_failure "no such table: ghosts")) as Hv
    by (vm_compute; reflexivity).
  rewrite Hv in He. injection He as <-.
  assert (known_tables Demo.connected = map (fun tb => SqlText (Demo.t_name tb)) Demo.seeded)
    as Hknown by (vm_compute; reflexivity).
  specialize (Hsug "users"). rewrite Hknown in Hsug.
  assert (Str.contains "users" (text_at (syntax_probe_failure "no such table: ghosts")
                                  "suggestion") = false) as Hnot
    by (vm_compute; reflexivity).
  rewrite Hnot in Hsug. discriminate Hsug. left.
Qed.

(** ** Statement kinds *)

(** C4: when the first token of the first statement that is neither blank
    nor comment is missing or is not a DML keyword of the tokenizer,
    [validate_sql] returns the unrecognized-statement dictionary, whose
    suggestion names the four kinds, and leaves the tool as it was; so it
    does for [DROP TABLE users]. *)
Theorem validate_sql_rejects_non_dml (E : Collaborators) (sql_query : string) (t : Tool (DB E))
    (first_statement : StatementTokens) (rest : list StatementTokens) :
  parse E sql_query = Return (first_statement :: rest) →
  statement_kind E sql_query = None →
  validate_sql sql_query t = (Return unrecognized_statement, t).
Proof.
  intros Hparse Hkind.
  pose proof (statement_kind_None _ _ _ Hparse Hkind) as Hfirst.
  rewrite validate_sql_eq, Hparse.
  destruct (token_first true true first_statement) as [[ty text | cls children] |];
    [| reflexivity ..].
  destruct ty; try reflexivity. by destruct (Hfirst text).
Qed.

Lemma validate_sql_rejects_non_dml_witness :
  parse Demo.sqlite "DROP TABLE users"
  = Return [[Leaf Keyword_DDL "DROP"; Leaf Whitespace " "; Leaf Keyword "TABLE";
             Leaf Whitespace " "; Group Identifier [Leaf Name "users"]]]
  ∧ statement_kind Demo.sqlite "DROP TABLE users" = None
  ∧ validate_sql "DROP TABLE users" Demo.connected
    = (Return unrecognized_statement, Demo.connected).
Proof.
  assert (parse Demo.sqlite "DROP TABLE users"
          = Return [[Leaf Keyword_DDL "DROP"; Leaf Whitespace " "; Leaf Keyword "TABLE";
                     Leaf Whitespace " "; Group Identifier [Leaf Name "users"]]]) as Hparse
    by (vm_compute; reflexivity).
  assert (statement_kind Demo.sqlite "DROP TABLE users" = None) as Hkind
    by (vm_compute; reflexivity).
  split; [exact Hparse |]. split; [exact Hkind |].
  exact (validate_sql_rejects_non_dml Demo.sqlite "DROP TABLE users" Demo.connected _ _
           Hparse Hkind).
Defined.

(** [REPLACE] is a keyword and none of the four kinds, and the tokenizer
    classes it as DML: the statement is accepted. *)
Lemma unsupported_kind_rejected_fails :
  ¬ unsupported_kind_rejected (E := Demo.sqlite) "REPLACE INTO users DEFAULT VALUES"
      Demo.connected.
Proof.
  intros Hclaim.
  assert ((validate_sql "REPLACE INTO users DEFAULT VALUES" Demo.connected).1
          = Return (acceptance "REPLACE" [])) as Hv by (vm_compute; reflexivity).
  specialize (Hclaim Keyword_DML "REPLACE").
  rewrite Hv in Hclaim.
  assert (Return (acceptance "REPLACE" []) = Return unrecognized_statement) as Heq.
  { apply Hclaim; [vm_compute; reflexivity | reflexivity |].
    unfold supported_kinds. intros H.
    repeat (apply elem_of_cons in H as [H | H]; [discriminate H |]).
    inversion H. }
  apply Return_inj in Heq.
  assert (acceptance "REPLACE" [] !! "valid" = Some (VBool false)) as Hvalid
    by (rewrite Heq; reflexivity).
  discriminate Hvalid.
Qed.

(** * Further properties of the gateway *)

(** The run of [SELECT * FROM rooms] on the demo engine. *)
Lemma demo_select_rooms :
  (execute_query "SELECT * FROM rooms" Demo.connected).1 = Return Demo.rooms_result.
Proof. vm_compute. reflexivity. Qed.

Section Traffic.

Context {E : Collaborators}.
Implicit Types (t : Tool (DB E)) (s : string).

(** [_get_existing_tables], step by step. *)
Lemma get_existing_tables_eq t :
  _get_existing_tables t =
  match conn t with
  | None => (Raise (no_cursor_attribute "execute"), t)
  | Some c =>
    match sqlite_execute E catalog_query (database c) with
    | Return (rs, db') =>
      (first_column (rs_rows rs),
       {| conn := Some {| database := db';
                          cursor := {| description := rs_description rs;
                                       pending := [];
                                       rowcount := rs_rowcount rs |};
                          sent := sent c ++ [catalog_query] |};
          ticks := ticks t |})
    | Raise e =>
      (Raise e,
       {| conn := Some {| database := database c; cursor := idle_cursor;
                          sent := sent c ++ [catalog_query] |};
          ticks := ticks t |})
    end
  end.
Proof.
  unfold _get_existing_tables, cursor_execute, cursor_fetchall. unfold_m.
  destruct (conn t) as [c |]; [| reflexivity].
  destruct (sqlite_execute E catalog_query (database c)) as [[rs db'] | x]; [| reflexivity].
  steps. destruct (first_column (rs_rows rs)); reflexivity.
Qed.

Lemma cursor_execute_eq stmt t :
  cursor_execute stmt t =
  match conn t with
  | None => (Raise (no_cursor_attribute "execute"), t)
  | Some c =>
    match sqlite_execute E stmt (database c) with
    | Return (rs, db') =>
      (Return (),
       {| conn := Some {| database := db'; cursor := cursor_of rs; sent := sent c ++ [stmt] |};
          ticks := ticks t |})
    | Raise e =>
      (Raise e,
       {| conn := Some {| database := database c; cursor := idle_cursor;
                          sent := sent c ++ [stmt] |};
          ticks := ticks t |})
    end
  end.
Proof. reflexivity. Qed.

End Traffic.

Ltac traffic_leaf Hc :=
  steps; rewrite ?Hc; split; [reflexivity |];
  first
    [ reflexivity
    | eexists; split; [reflexivity |];
      unfold probes_only; steps; rewrite <- ?app_assoc;
      first [left; reflexivity | right; left; reflexivity | right; right; reflexivity] ].

(** X1: whatever the text, [validate_sql] hands the engine at most the
    catalog listing and the plan probe of the text, never the text itself;
    it does not read the clock, and an unconnected tool stays unconnected. *)
Theorem validate_sql_probes_only (E : Collaborators) (sql_query : string) (t : Tool (DB E)) :
  ticks (validate_sql sql_query t).2 = ticks t
  ∧ match conn t with
    | None => conn (validate_sql sql_query t).2 = None
    | Some c =>
      ∃ c', conn (validate_sql sql_query t).2 = Some c'
            ∧ probes_only sql_query (sent c) (sent c')
    end.
Proof.
  rewrite validate_sql_eq, get_existing_tables_eq.
  destruct (conn t) as [c |] eqn:Hc;
    (destruct (parse E sql_query) as [[| first_statement rest] | x];
     [traffic_leaf Hc | | traffic_leaf Hc]);
    (destruct (token_first true true first_statement) as [[ty text | cls children] |];
     [| traffic_leaf Hc ..]);
    (destruct ty; try traffic_leaf Hc).
  - destruct (sqlite_execute E catalog_query (database c)) as [[rs db'] | x];
      [| traffic_leaf Hc].
    destruct (first_column (rs_rows rs)) as [existing | x]; [| traffic_leaf Hc].
    destruct (elements (set_difference _ _)) as [| name names].
    + destruct (String.eqb (Str.upper text) "SELECT"); [| traffic_leaf Hc].
      rewrite cursor_execute_eq. steps.
      destruct (sqlite_execute E (explain sql_query) db') as [[rs2 db2] | [msg | msg]];
        traffic_leaf Hc.
    + destruct (join_items existing); traffic_leaf Hc.
Qed.

(** X2: on a tool without connection, every statement that starts with a DML
    keyword is answered with the validation-failed dictionary that carries
    the message of the [AttributeError] of the missing cursor; the tool is
    left as it was. *)
Theorem validate_sql_unconnected (E : Collaborators) (sql_query : string) (t : Tool (DB E))
    (k : string) :
  conn t = None →
  statement_kind E sql_query = Some k →
  validate_sql sql_query t
  = (Return (validation_failed (no_cursor_attribute "execute")), t).
Proof.
  intros Hc (first_statement & rest & text & Hparse & Hfirst & ->)%statement_kind_Some.
  rewrite validate_sql_eq, Hparse, Hfirst, get_existing_tables_eq, Hc. reflexivity.
Qed.

Lemma validate_sql_unconnected_witness :
  conn Demo.unconnected = None
  ∧ statement_kind Demo.sqlite "SELECT * FROM users" = Some "SELECT"
  ∧ validate_sql "SELECT * FROM users" Demo.unconnected
    = (Return (validation_failed (no_cursor_attribute "execute")), Demo.unconnected).
Proof.
  assert (statement_kind Demo.sqlite "SELECT * FROM users" = Some "SELECT") as Hkind
    by (vm_compute; reflexivity).
  split; [reflexivity |]. split; [exact Hkind |].
  exact (validate_sql_unconnected Demo.sqlite "SELECT * FROM users" Demo.unconnected "SELECT"
           eq_refl Hkind).
Defined.

(** X3: a statement whose kind is a DML keyword other than [SELECT] is
    accepted as soon as the table listing can be read and no referenced table
    is unknown: its text is not probed, and the only statement handed to the
    engine is the catalog listing.  So [DELETE FROM ghosts] is valid. *)
Theorem validate_sql_unprobed (E : Collaborators) (sql_query : string) (t : Tool (DB E))
    (k : string) (existing : list SqlValue) :
  statement_kind E sql_query = Some k →
  k ≠ "SELECT" →
  (_get_existing_tables t).1 = Return existing →
  (∀ name, name ∈ referenced_tables sql_query t → SqlText name ∈ existing) →
  validate_sql sql_query t
  = (Return (acceptance k (referenced_tables sql_query t)), (_get_existing_tables t).2).
Proof.
  intros (first_statement & rest & text & Hparse & Hfirst & ->)%statement_kind_Some
         Hk Hex Hknown.
  rewrite validate_sql_eq, Hparse, Hfirst.
  destruct (_get_existing_tables t) as [o1 t1]. steps. subst o1.
  apply set_difference_nil in Hknown. rewrite Hknown.
  apply String.eqb_neq in Hk. rewrite Hk. reflexivity.
Qed.

Lemma validate_sql_unprobed_witness :
  statement_kind Demo.sqlite "DELETE FROM ghosts" = Some "DELETE"
  ∧ (_get_existing_tables Demo.connected).1
    = Return (map (fun tb => SqlText (Demo.t_name tb)) Demo.seeded)
  ∧ (validate_sql "DELETE FROM ghosts" Demo.connected).1 = Return (acceptance "DELETE" [])
  ∧ (sent <$> conn (validate_sql "DELETE FROM ghosts" Demo.connected).2)
    = Some [catalog_query].
Proof.
  assert (statement_kind Demo.sqlite "DELETE FROM ghosts" = Some "DELETE") as Hkind
    by (vm_compute; reflexivity).
  assert ((_get_existing_tables Demo.connected).1
          = Return (map (fun tb => SqlText (Demo.t_name tb)) Demo.seeded)) as Hex
    by (vm_compute; reflexivity).
  assert (∀ name, name ∈ referenced_tables "DELETE FROM ghosts" Demo.connected →
                  SqlText name ∈ map (fun tb => SqlText (Demo.t_name tb)) Demo.seeded)
    as Hknown by (rewrite referenced_tables_nil; intros name Hin; inversion Hin).
  pose proof (validate_sql_unprobed Demo.sqlite "DELETE FROM ghosts" Demo.connected "DELETE"
                _ Hkind ltac:(discriminate) Hex Hknown) as Hv.
  split; [exact Hkind |]. split; [exact Hex |].
  rewrite Hv, referenced_tables_nil. split; [reflexivity | vm_compute; reflexivity].
Defined.

(** ** [execute_query], path by path *)

Section ExecuteFacts.

Context {E : Collaborators}.
Implicit Types (t : Tool (DB E)) (s : string).

Lemma execute_query_of_rejection s t t0 error suggestion :
  validate_sql s t = (Return (rejection error suggestion), t0) →
  execute_query s t = (Return (rejection error suggestion), t0).
Proof.
  intros Hv. unfold execute_query, getitem. unfold_m.
  rewrite Hv, rejection_valid. reflexivity.
Qed.

(** After an accepted validation only the branch of the kind is left. *)
Lemma execute_query_of_acceptance s t t0 k names :
  validate_sql s t = (Return (acceptance k names), t0) →
  execute_query s t =
  try_except
    (start_time ← now;
     if String.eqb k "SELECT"
     then run_select s start_time
     else run_other s (acceptance k names) start_time)
    (except_sqlite3_Error (fun msg => mret (execution_failure msg))) t0.
Proof.
  intros Hv. unfold execute_query, getitem. unfold_m.
  rewrite Hv, acceptance_valid, acceptance_statement_type. reflexivity.
Qed.

(** The branch for the other statements, by what the engine answers. *)
Lemma run_other_eq s k names start_time t :
  run_other s (acceptance k names) start_time t =
  match conn t with
  | None => (Raise (no_cursor_attribute "execute"), t)
  | Some c =>
    match sqlite_execute E s (database c) with
    | Raise e =>
      (Raise e,
       {| conn := Some {| database := database c; cursor := idle_cursor;
                          sent := sent c ++ [s] |};
          ticks := ticks t |})
    | Return (rs, db1) =>
      match sqlite_commit E db1 with
      | Raise e =>
        (Raise e,
         {| conn := Some {| database := db1; cursor := cursor_of rs; sent := sent c ++ [s] |};
            ticks := ticks t |})
      | Return db2 =>
        (Return ({[ "valid" := VBool true;
                    "statement_type" := VStr k;
                    "affected_rows" := VInt (rs_rowcount rs);
                    "execution_time" := VSeconds (wall_clock E (ticks t) - start_time);
                    "message" := VStr (k ++ " 语句执行成功") ]} : Envelope),
         {| conn := Some {| database := db2; cursor := cursor_of rs; sent := sent c ++ [s] |};
            ticks := S (ticks t) |})
      end
    end
  end.
Proof.
  unfold run_other, cursor_execute, conn_commit, cursor_rowcount, now, getitem. unfold_m.
  destruct (conn t) as [c |]; [| reflexivity].
  destruct (sqlite_execute E s (database c)) as [[rs db1] | x]; [| reflexivity].
  steps.
  destruct (sqlite_commit E db1) as [db2 | x]; [| reflexivity].
  steps. rewrite acceptance_statement_type. reflexivity.
Qed.

(** The [SELECT] branch, by what the engine answers. *)
Lemma run_select_eq s start_time t :
  run_select s start_time t =
  match conn t with
  | None => (Raise (no_cursor_attribute "execute"), t)
  | Some c =>
    match sqlite_execute E (explain s) (database c) with
    | Raise e =>
      (Raise e,
       {| conn := Some {| database := database c; cursor := idle_cursor;
                          sent := sent c ++ [explain s] |};
          ticks := ticks t |})
    | Return (plan, db1) =>
      match sqlite_execute E s db1 with
      | Raise e =>
        (Raise e,
         {| conn := Some {| database := db1; cursor := idle_cursor;
                            sent := (sent c ++ [explain s]) ++ [s] |};
            ticks := ticks t |})
      | Return (rs, db2) =>
        let after :=
          {| database := db2;
             cursor := {| description := rs_description rs; pending := [];
                          rowcount := rs_rowcount rs |};
             sent := (sent c ++ [explain s]) ++ [s] |} in
        match rs_description rs with
        | None =>
          (Raise (OtherException "'NoneType' object is not iterable"),
           {| conn := Some after; ticks := ticks t |})
        | Some column_names =>
          (Return ({[ "valid" := VBool true;
                      "statement_type" := VStr "SELECT";
                      "results" := VRows (rs_rows rs);
                      "columns" := VStrList column_names;
                      "row_count" := VInt (Z.of_nat (length (rs_rows rs)));
                      "execution_time" := VSeconds (wall_clock E (ticks t) - start_time);
                      "query_plan" := VRows (rs_rows plan) ]} : Envelope),
           {| conn := Some after; ticks := S (ticks t) |})
        end
      end
    end
  end.
Proof.
  unfold run_select, cursor_execute, cursor_fetchall, cursor_column_names, now. unfold_m.
  destruct (conn t) as [c |]; [| reflexivity].
  destruct (sqlite_execute E (explain s) (database c)) as [[plan db1] | x]; [| reflexivity].
  steps.
  destruct (sqlite_execute E s db1) as [[rs db2] | x]; [| reflexivity].
  steps.
  destruct (rs_description rs) as [column_names |]; reflexivity.
Qed.

End ExecuteFacts.

Ltac run_accepted Hv :=
  rewrite (execute_query_of_acceptance _ _ _ _ _ Hv);
  unfold try_except, now; unfold_m; steps.

(** X4: when validation accepted a statement of a kind other than [SELECT],
    the engine ran it and the commit went through, [execute_query] returns
    [valid = True] with the kind, the row count the engine reported under
    ['affected_rows'] and the success message, and the database is the
    committed one. *)
Theorem execute_query_affected_rows (E : Collaborators) (sql_query : string)
    (t t0 : Tool (DB E)) (c : Connection (DB E)) (k : string) (names : list string)
    (rs : ResultSet) (db1 db2 : DB E) :
  validate_sql sql_query t = (Return (acceptance k names), t0) →
  k ≠ "SELECT" →
  conn t0 = Some c →
  sqlite_execute E sql_query (database c) = Return (rs, db1) →
  sqlite_commit E db1 = Return db2 →
  ∃ e, (execute_query sql_query t).1 = Return e
       ∧ e !! "valid" = Some (VBool true)
       ∧ e !! "statement_type" = Some (VStr k)
       ∧ e !! "affected_rows" = Some (VInt (rs_rowcount rs))
       ∧ e !! "message" = Some (VStr (k ++ " 语句执行成功"))
       ∧ database <$> conn (execute_query sql_query t).2 = Some db2.
Proof.
  intros Hv Hk%String.eqb_neq Hc Hrun Hcommit.
  run_accepted Hv. rewrite Hk, run_other_eq. steps. rewrite Hc, Hrun, Hcommit. steps.
  eexists. split; [reflexivity |]. repeat split; reflexivity.
Qed.

Lemma execute_query_affected_rows_witness :
  validate_sql "DELETE FROM users" Demo.connected
  = (Return (acceptance "DELETE" []), {| conn := Some listed; ticks := 0 |})
  ∧ sqlite_execute Demo.sqlite "DELETE FROM users" Demo.seeded
    = Return (Demo.no_rows 2, users_emptied)
  ∧ ∃ e, (execute_query "DELETE FROM users" Demo.connected).1 = Return e
         ∧ e !! "valid" = Some (VBool true)
         ∧ e !! "statement_type" = Some (VStr "DELETE")
         ∧ e !! "affected_rows" = Some (VInt 2)
         ∧ e !! "message" = Some (VStr "DELETE 语句执行成功")
         ∧ database <$> conn (execute_query "DELETE FROM users" Demo.connected).2
           = Some users_emptied.
Proof.
  assert (validate_sql "DELETE FROM users" Demo.connected
          = (Return (acceptance "DELETE" []), {| conn := Some listed; ticks := 0 |})) as Hv
    by (vm_compute; reflexivity).
  assert (sqlite_execute Demo.sqlite "DELETE FROM users" Demo.seeded
          = Return (Demo.no_rows 2, users_emptied)) as Hrun
    by (vm_compute; reflexivity).
  split; [exact Hv |]. split; [exact Hrun |].
  exact (execute_query_affected_rows Demo.sqlite "DELETE FROM users" Demo.connected
           {| conn := Some listed; ticks := 0 |} listed "DELETE" [] (Demo.no_rows 2)
           users_emptied users_emptied Hv ltac:(discriminate) eq_refl Hrun eq_refl).
Defined.



(** X6: [execute_query] catches [sqlite3.Error] only: when validation
    accepted a statement of a kind other than [SELECT] and the engine raises
    another exception on it, that exception reaches the caller. *)
Theorem execute_query_propagates (E : Collaborators) (sql_query : string)
    (t t0 : Tool (DB E)) (c : Connection (DB E)) (k : string) (names : list string)
    (msg : string) :
  validate_sql sql_query t = (Return (acceptance k names), t0) →
  k ≠ "SELECT" →
  conn t0 = Some c →
  sqlite_execute E sql_query (database c) = Raise (OtherException msg) →
  (execute_query sql_query t).1 = Raise (OtherException msg).
Proof.
  intros Hv Hk%String.eqb_neq Hc Hrun.
  run_accepted Hv. rewrite Hk, run_other_eq. steps. rewrite Hc, Hrun. reflexivity.
Qed.

Lemma execute_query_propagates_witness :
  validate_sql (E := Legacy.sqlite) "DELETE FROM users; DELETE FROM rooms" Legacy.connected
  = (Return (acceptance "DELETE" []), {| conn := Some listed; ticks := 0 |})
  ∧ sqlite_execute Legacy.sqlite "DELETE FROM users; DELETE FROM rooms" Demo.seeded
    = Raise (OtherException "You can only execute one statement at a time.")
  ∧ (execute_query (E := Legacy.sqlite) "DELETE FROM users; DELETE FROM rooms"
       Legacy.connected).1
    = Raise (OtherException "You can only execute one statement at a time.").
Proof.
  assert (validate_sql (E := Legacy.sqlite) "DELETE FROM users; DELETE FROM rooms"
            Legacy.connected
          = (Return (acceptance "DELETE" []), {| conn := Some listed; ticks := 0 |})) as Hv
    by (vm_compute; reflexivity).
  assert (sqlite_execute Legacy.sqlite "DELETE FROM users; DELETE FROM rooms" Demo.seeded
          = Raise (OtherException "You can only execute one statement at a time.")) as Hrun
    by (vm_compute; reflexivity).
  split; [exact Hv |]. split; [exact Hrun |].
  exact (execute_query_propagates Legacy.sqlite "DELETE FROM users; DELETE FROM rooms"
           Legacy.connected {| conn := Some listed; ticks := 0 |} listed "DELETE" []
           "You can only execute one statement at a time." Hv ltac:(discriminate) eq_refl Hrun).
Defined.

(** X7: on a tool without connection [execute_query] never raises and never
    succeeds: for every text it returns a failure dictionary and leaves the
    tool as it was. *)
Theorem execute_query_unconnected (E : Collaborators) (sql_query : string) (t : Tool (DB E)) :
  conn t = None →
  ∃ error suggestion,
    execute_query sql_query t = (Return (rejection error suggestion), t).
Proof.
  intros Hc.
  assert (∃ error suggestion,
            validate_sql sql_query t = (Return (rejection error suggestion), t))
    as (error & suggestion & Hv).
  { rewrite validate_sql_eq, get_existing_tables_eq, Hc.
    destruct (parse E sql_query) as [[| first_statement rest] | x];
      [by eexists _, _ | | by eexists _, _].
    destruct (token_first true true first_statement) as [[ty text | cls children] |];
      [| by eexists _, _ ..].
    destruct ty; by eexists _, _. }
  exists error, suggestion. by apply execute_query_of_rejection.
Qed.

Lemma execute_query_unconnected_witness :
  conn Demo.unconnected = None
  ∧ ∃ error suggestion,
      execute_query "SELECT * FROM users" Demo.unconnected
      = (Return (rejection error suggestion), Demo.unconnected).
Proof.
  split; [reflexivity |].
  exact (execute_query_unconnected Demo.sqlite "SELECT * FROM users" Demo.unconnected eq_refl).
Defined.

(** X8: no [sqlite3.Error] ever leaves [execute_query]: whatever the text
    and the state of the tool, the call does not raise an exception of that
    class. *)
Theorem execute_query_no_sqlite_error (E : Collaborators) (sql_query : string)
    (t : Tool (DB E)) (msg : string) :
  (execute_query sql_query t).1 ≠ Raise (SqliteError msg).
Proof.
  destruct (validate_sql_returns sql_query t) as (v & Hv & Hshape).
  destruct (validate_sql sql_query t) as [o t0] eqn:Hval. steps. subst o.
  destruct Hshape as [(error & suggestion & ->) | (k & names & ->)].
  - by rewrite (execute_query_of_rejection _ _ _ _ _ Hval).
  - run_accepted Hval.
    destruct (String.eqb k "SELECT").
    + rewrite run_select_eq. steps.
      destruct (conn t0) as [c |]; [| discriminate].
      destruct (sqlite_execute E (explain sql_query) (database c)) as [[plan db1] | [m | m]];
        steps; [| discriminate ..].
      destruct (sqlite_execute E sql_query db1) as [[rs db2] | [m | m]];
        steps; [| discriminate ..].
      destruct (rs_description rs); discriminate.
    + rewrite run_other_eq. steps.
      destruct (conn t0) as [c |]; [| discriminate].
      destruct (sqlite_execute E sql_query (database c)) as [[rs db1] | [m | m]];
        steps; [| discriminate ..].
      destruct (sqlite_commit E db1) as [db2 | [m | m]]; discriminate.
Qed.

(** ** The log of a successful [SELECT] *)

Lemma rejection_ne_acceptance error suggestion k names :
  rejection error suggestion ≠ acceptance k names.
Proof.
  intros H.
  assert (rejection error suggestion !! "valid" = acceptance k names !! "valid") as Hvalid
    by (rewrite H; reflexivity).
  rewrite rejection_valid, acceptance_valid in Hvalid. discriminate Hvalid.
Qed.

Lemma acceptance_kind k names k' names' :
  acceptance k names = acceptance k' names' → k = k'.
Proof.
  intros H.
  assert (acceptance k names !! "statement_type" = acceptance k' names' !! "statement_type")
    as Hkind by (rewrite H; reflexivity).
  rewrite !acceptance_statement_type in Hkind. by injection Hkind.
Qed.

Lemma outcome_pair {A S : Type} (a b : A) (u v : S) :
  (Return a, u) = (Return b, v) → a = b ∧ u = v.
Proof. intros H. split; [by injection H | by injection H]. Qed.

Ltac not_accepted :=
  let H := fresh in
  intros [H _]%outcome_pair; exfalso;
  unfold validation_failed, empty_or_unparseable, unrecognized_statement, unknown_tables,
    syntax_probe_failure in H;
  exact (rejection_ne_acceptance _ _ _ _ H).

(** The tool after a validation that accepted a [SELECT]: the catalog listing
    and the plan probe were handed to the engine. *)
Lemma validate_sql_select_log {E : Collaborators} (s : string) (t t0 : Tool (DB E))
    (c : Connection (DB E)) (names : list string) :
  conn t = Some c →
  validate_sql s t = (Return (acceptance "SELECT" names), t0) →
  ∃ c0, conn t0 = Some c0 ∧ sent c0 = (sent c ++ [catalog_query; explain s])%list.
Proof.
  intros Hc. rewrite validate_sql_eq, get_existing_tables_eq, Hc.
  destruct (parse E s) as [[| first_statement rest] | x]; [not_accepted | | not_accepted].
  destruct (token_first true true first_statement) as [[ty text | cls children] |];
    [| not_accepted ..].
  destruct ty; try not_accepted.
  destruct (sqlite_execute E catalog_query (database c)) as [[rs db'] | x];
    [| not_accepted].
  destruct (first_column (rs_rows rs)) as [existing | x]; [| not_accepted].
  destruct (elements (set_difference _ _)) as [| name names'].
  - destruct (String.eqb (Str.upper text) "SELECT") eqn:Hk.
    + rewrite cursor_execute_eq. steps.
      destruct (sqlite_execute E (explain s) db') as [[rs2 db2] | [msg | msg]];
        [| not_accepted ..].
      intros [_ <-]%outcome_pair. eexists. split; [reflexivity |].
      steps. by rewrite <- app_assoc.
    + intros [Hacc _]%outcome_pair. apply acceptance_kind in Hacc.
      rewrite Hacc, String.eqb_refl in Hk. discriminate Hk.
  - destruct (join_items existing); not_accepted.
Qed.

(** X9: a successful [SELECT] costs the engine four statements, in this
    order: the catalog listing and the plan probe of validation, the plan
    probe again and the statement itself, which is run once. *)
Theorem execute_query_select_log (E : Collaborators) (sql_query : string) (t : Tool (DB E))
    (c : Connection (DB E)) (e : Envelope) :
  conn t = Some c →
  (execute_query sql_query t).1 = Return e →
  e !! "valid" = Some (VBool true) →
  e !! "statement_type" = Some (VStr "SELECT") →
  ∃ c',
    conn (execute_query sql_query t).2 = Some c'
    ∧ sent c'
      = (sent c ++ [catalog_query; explain sql_query; explain sql_query; sql_query])%list.
Proof.
  intros Hc.
  destruct (validate_sql_returns sql_query t) as (v & Hv & Hshape).
  destruct (validate_sql sql_query t) as [o t0] eqn:Hval. steps. subst o.
  destruct Hshape as [(error & suggestion & ->) | (k & names & ->)].
  - rewrite (execute_query_of_rejection _ _ _ _ _ Hval). steps.
    intros <-%Return_inj Hvalid. rewrite rejection_valid in Hvalid. discriminate Hvalid.
  - run_accepted Hval.
    destruct (String.eqb k "SELECT") eqn:Hk.
    + apply String.eqb_eq in Hk. subst k.
      destruct (validate_sql_select_log _ _ _ _ _ Hc Hval) as (c0 & Hc0 & Hlog).
      rewrite run_select_eq. steps. rewrite Hc0.
      destruct (sqlite_execute E (explain sql_query) (database c0)) as [[plan db1] | [m | m]];
        steps;
        [| intros <-%Return_inj Hvalid; discriminate Hvalid | discriminate].
      destruct (sqlite_execute E sql_query db1) as [[rs db2] | [m | m]];
        steps;
        [| intros <-%Return_inj Hvalid; discriminate Hvalid | discriminate].
      destruct (rs_description rs); steps; [| discriminate].
      intros _ _ _. eexists. split; [reflexivity |].
      steps. rewrite Hlog, <- !app_assoc. reflexivity.
    + apply String.eqb_neq in Hk.
      rewrite run_other_eq. steps.
      destruct (conn t0) as [c0 |]; [| discriminate].
      destruct (sqlite_execute E sql_query (database c0)) as [[rs db1] | [m | m]];
        steps;
        [| intros <-%Return_inj Hvalid; discriminate Hvalid | discriminate].
      destruct (sqlite_commit E db1) as [db2 | [m | m]]; steps;
        [| intros <-%Return_inj Hvalid; discriminate Hvalid | discriminate].
      intros <-%Return_inj _ Hkind. exfalso. apply Hk.
      rewrite lookup_insert_ne, lookup_insert_eq in Hkind by done.
      by injection Hkind.
Qed.

Lemma execute_query_select_log_witness :
  conn Demo.connected
  = Some {| database := Demo.seeded; cursor := idle_cursor; sent := [] |}
  ∧ (execute_query "SELECT * FROM rooms" Demo.connected).1 = Return Demo.rooms_result
  ∧ ∃ c',
      conn (execute_query "SELECT * FROM rooms" Demo.connected).2 = Some c'
      ∧ sent c' = [catalog_query; explain "SELECT * FROM rooms";
                   explain "SELECT * FROM rooms"; "SELECT * FROM rooms"].
Proof.
  pose proof demo_select_rooms as He.
  split; [reflexivity |]. split; [exact He |].
  exact (execute_query_select_log Demo.sqlite "SELECT * FROM rooms" Demo.connected
           {| database := Demo.seeded; cursor := idle_cursor; sent := [] |}
           Demo.rooms_result eq_refl He eq_refl eq_refl).
Defined.

(** ** The reported time *)

(** X10: with a clock that does not run backwards, the ['execution_time'] of
    every result of [execute_query] that has one is not negative: it is the
    difference of two successive readings. *)
Theorem execution_time_nonnegative (E : Collaborators) (sql_query : string) (t : Tool (DB E))
    (e : Envelope) (z : Z) :
  clock_monotone E →
  (execute_query sql_query t).1 = Return e →
  e !! "execution_time" = Some (VSeconds z) →
  (0 <= z)%Z.
Proof.
  intros Hclock.
  destruct (validate_sql_returns sql_query t) as (v & Hv & Hshape).
  destruct (validate_sql sql_query t) as [o t0] eqn:Hval. steps. subst o.
  destruct Hshape as [(error & suggestion & ->) | (k & names & ->)].
  - rewrite (execute_query_of_rejection _ _ _ _ _ Hval). steps.
    intros <-%Return_inj Hz. rewrite rejection_keys in Hz by done. discriminate Hz.
  - run_accepted Hval.
    assert (∀ m, execution_failure m !! "execution_time" = Some (VSeconds z) → (0 <= z)%Z)
      as Hfail.
    { intros m Hz. unfold execution_failure in Hz.
      rewrite rejection_keys in Hz by done. discriminate Hz. }
    destruct (String.eqb k "SELECT").
    + rewrite run_select_eq. steps.
      destruct (conn t0) as [c |]; [| discriminate].
      destruct (sqlite_execute E (explain sql_query) (database c)) as [[plan db1] | [m | m]];
        steps; [| intros <-%Return_inj; apply Hfail | discriminate].
      destruct (sqlite_execute E sql_query db1) as [[rs db2] | [m | m]];
        steps; [| intros <-%Return_inj; apply Hfail | discriminate].
      destruct (rs_description rs); steps; [| discriminate].
      intros <-%Return_inj Hz.
      rewrite !lookup_insert_ne in Hz by done. rewrite lookup_insert_eq in Hz.
      injection Hz as <-. specialize (Hclock (ticks t0)). lia.
    + rewrite run_other_eq. steps.
      destruct (conn t0) as [c |]; [| discriminate].
      destruct (sqlite_execute E sql_query (database c)) as [[rs db1] | [m | m]];
        steps; [| intros <-%Return_inj; apply Hfail | discriminate].
      destruct (sqlite_commit E db1) as [db2 | [m | m]]; steps;
        [| intros <-%Return_inj; apply Hfail | discriminate].
      intros <-%Return_inj Hz.
      rewrite !lookup_insert_ne in Hz by done. rewrite lookup_insert_eq in Hz.
      injection Hz as <-. specialize (Hclock (ticks t0)). lia.
Qed.

Lemma demo_clock_monotone : clock_monotone Demo.sqlite.
Proof. intros n. simpl. lia. Qed.

Lemma execution_time_nonnegative_witness :
  clock_monotone Demo.sqlite
  ∧ (execute_query "SELECT * FROM rooms" Demo.connected).1 = Return Demo.rooms_result
  ∧ Demo.rooms_result !! "execution_time" = Some (VSeconds 1000)
  ∧ (0 <= 1000)%Z.
Proof.
  pose proof demo_select_rooms as He.
  split; [exact demo_clock_monotone |]. split; [exact He |]. split; [reflexivity |].
  exact (execution_time_nonnegative Demo.sqlite "SELECT * FROM rooms" Demo.connected
           Demo.rooms_result 1000 demo_clock_monotone He eq_refl).
Defined.

(** ** Showing a result *)

Lemma visualize_results_rejection error suggestion :
  visualize_results (rejection error suggestion) = Return OnlySelect.
Proof. reflexivity. Qed.

(** X15: on every dictionary that [execute_query] returns, the guards and the
    subscripts at the head of [visualize_results] raise no [KeyError]: the
    call either declines, because the result is no valid [SELECT] result, or
    finds ['results'] and ['columns']. *)
Theorem visualize_results_of_execute_query (E : Collaborators) (sql_query : string)
    (t : Tool (DB E)) (e : Envelope) :
  (execute_query sql_query t).1 = Return e →
  ∃ v, visualize_results e = Return v.
Proof.
  destruct (validate_sql_returns sql_query t) as (v & Hv & Hshape).
  destruct (validate_sql sql_query t) as [o t0] eqn:Hval. steps. subst o.
  destruct Hshape as [(error & suggestion & ->) | (k & names & ->)].
  - rewrite (execute_query_of_rejection _ _ _ _ _ Hval). steps.
    intros <-%Return_inj. by exists OnlySelect.
  - run_accepted Hval.
    assert (∀ m, ∃ v, visualize_results (execution_failure m) = Return v) as Hfail
      by (intros m; by exists OnlySelect).
    destruct (String.eqb k "SELECT") eqn:Hk.
    + rewrite run_select_eq. steps.
      destruct (conn t0) as [c |]; [| discriminate].
      destruct (sqlite_execute E (explain sql_query) (database c)) as [[plan db1] | [m | m]];
        steps; [| intros <-%Return_inj; apply Hfail | discriminate].
      destruct (sqlite_execute E sql_query db1) as [[rs db2] | [m | m]];
        steps; [| intros <-%Return_inj; apply Hfail | discriminate].
      destruct (rs_description rs) as [column_names |]; steps; [| discriminate].
      intros <-%Return_inj.
      destruct (rs_rows rs) as [| row rows] eqn:Hrows.
      * by exists NothingToShow.
      * by exists (Rendering (VRows (row :: rows)) (VStrList column_names)).
    + rewrite run_other_eq. steps.
      destruct (conn t0) as [c |]; [| discriminate].
      destruct (sqlite_execute E sql_query (database c)) as [[rs db1] | [m | m]];
        steps; [| intros <-%Return_inj; apply Hfail | discriminate].
      destruct (sqlite_commit E db1) as [db2 | [m | m]]; steps;
        [| intros <-%Return_inj; apply Hfail | discriminate].
      intros <-%Return_inj. exists OnlySelect.
      unfold visualize_results, not_get, get_differs.
      rewrite lookup_insert_eq, lookup_insert_ne, lookup_insert_eq by done.
      steps. by rewrite Hk.
Qed.

Lemma visualize_results_of_execute_query_witness :
  (execute_query "SELECT * FROM rooms" Demo.connected).1 = Return Demo.rooms_result
  ∧ ∃ v, visualize_results Demo.rooms_result = Return v.
Proof.
  pose proof demo_select_rooms as He.
  split; [exact He |].
  exact (visualize_results_of_execute_query Demo.sqlite "SELECT * FROM rooms" Demo.connected
           Demo.rooms_result He).
Defined.

(** * The natural-language translator *)

Section Normalisation.

Implicit Types (n s : string) (a c : ascii).

Lemma high_lower a c : is_high a = true → (a = Str.lower_ascii c ↔ a = c).
Proof.
  intros Ha.
  destruct c as [[] [] [] [] [] [] [] []]; try (cbv; tauto);
    (split; intros ->; vm_compute in Ha; discriminate Ha).
Qed.

Lemma high_not_space a : is_high a = true → Text.is_space a = false.
Proof.
  destruct a as [[] [] [] [] [] [] [] []]; vm_compute; intros H;
    first [reflexivity | discriminate H].
Qed.

Lemma prefix_cons a n c s :
  String.prefix (String a n) (String c s)
  = if decide (a = c) then String.prefix n s else false.
Proof.
  simpl. destruct (ascii_dec a c) as [-> | Hne].
  - by rewrite decide_True.
  - by rewrite decide_False.
Qed.

Lemma prefix_lower n s :
  all_high n = true → String.prefix n (Str.lower s) = String.prefix n s.
Proof.
  revert s. induction n as [| a n IH]; intros s Hn; [by destruct s |].
  simpl in Hn. apply andb_prop in Hn as [Ha Hn].
  destruct s as [| c s]; [reflexivity |].
  change (Str.lower (String c s)) with (String (Str.lower_ascii c) (Str.lower s)).
  rewrite !prefix_cons, (IH s Hn).
  destruct (decide (a = c)) as [-> | Hne].
  - rewrite decide_True; [done |]. by apply (high_lower c c Ha).
  - rewrite decide_False; [done |]. intros Heq. by apply Hne, (high_lower a c Ha).
Qed.

Lemma contains_cons n c s :
  Str.contains n (String c s) = String.prefix n (String c s) || Str.contains n s.
Proof. reflexivity. Qed.

Lemma contains_lower n s :
  all_high n = true → Str.contains n (Str.lower s) = Str.contains n s.
Proof.
  intros Hn. induction s as [| c s IH]; [reflexivity |].
  change (Str.lower (String c s)) with (String (Str.lower_ascii c) (Str.lower s)).
  rewrite !contains_cons, IH.
  change (String (Str.lower_ascii c) (Str.lower s)) with (Str.lower (String c s)).
  by rewrite prefix_lower.
Qed.

Lemma prefix_space a n c s :
  is_high a = true → Text.is_space c = true → String.prefix (String a n) (String c s) = false.
Proof.
  intros Ha Hc. rewrite prefix_cons, decide_False; [done |].
  intros ->. rewrite (high_not_space c Ha) in Hc. discriminate Hc.
Qed.

Lemma contains_lstrip a n s :
  is_high a = true →
  Str.contains (String a n) (Text.lstrip s) = Str.contains (String a n) s.
Proof.
  intros Ha. induction s as [| c s IH]; [reflexivity |].
  simpl Text.lstrip. destruct (Text.is_space c) eqn:Hc; [| reflexivity].
  by rewrite IH, contains_cons, (prefix_space a n c s Ha Hc).
Qed.

Lemma rstrip_cons c s :
  Text.rstrip (String c s) = EmptyString ∧ Text.rstrip s = EmptyString ∧ Text.is_space c = true
  ∨ Text.rstrip (String c s) = String c (Text.rstrip s).
Proof.
  simpl. destruct (Text.rstrip s) as [| d r]; [| by right].
  destruct (Text.is_space c); [by left | by right].
Qed.

Lemma prefix_rstrip n s :
  all_high n = true → String.prefix n (Text.rstrip s) = String.prefix n s.
Proof.
  revert n. induction s as [| c s IH]; intros n Hn; [reflexivity |].
  destruct n as [| a n]; [by destruct (Text.rstrip (String c s)) |].
  simpl in Hn. apply andb_prop in Hn as [Ha Hn].
  destruct (rstrip_cons c s) as [(-> & _ & Hc) | ->].
  - by rewrite (prefix_space a n c s Ha Hc).
  - by rewrite !prefix_cons, (IH n Hn).
Qed.

Lemma contains_rstrip a n s :
  all_high (String a n) = true →
  Str.contains (String a n) (Text.rstrip s) = Str.contains (String a n) s.
Proof.
  intros Hn. induction s as [| c s IH]; [reflexivity |].
  rewrite contains_cons, <- IH, <- (prefix_rstrip _ (String c s) Hn).
  destruct (rstrip_cons c s) as [(-> & -> & _) | ->]; reflexivity.
Qed.

(** The tests of the translator see through [lower] and [strip]. *)
Lemma contains_normalised word q :
  word ∈ nl_keywords →
  Str.contains word (Text.strip (Str.lower q)) = Str.contains word q.
Proof.
  intros Hword.
  assert (all_high word = true ∧ word ≠ EmptyString) as [Hhigh Hne].
  { unfold nl_keywords in Hword.
    repeat (apply elem_of_cons in Hword as [-> | Hword]; [by split |]).
    inversion Hword. }
  destruct word as [| a n]; [done |].
  assert (is_high a = true) as Ha by (simpl in Hhigh; by apply andb_prop in Hhigh as [? _]).
  unfold Text.strip.
  by rewrite (contains_rstrip a n _ Hhigh), (contains_lstrip a n _ Ha), contains_lower.
Qed.

End Normalisation.

Ltac vocabulary :=
  unfold tables; repeat first [apply list_elem_of_here | apply list_elem_of_further].

Ltac keyword := unfold nl_keywords; repeat first [apply list_elem_of_here | apply list_elem_of_further].

(** The three answers of the translator, by the words of the request. *)
Lemma translation_cases q :
  (has_query_verb q = false ∧ natural_language_query q = only_simple_queries)
  ∨ (has_query_verb q = true ∧ has_table_word q = false
     ∧ natural_language_query q = table_not_recognized)
  ∨ (has_query_verb q = true ∧ has_table_word q = true
     ∧ ∃ table clause,
         table ∈ tables
         ∧ natural_language_query q
           = "SELECT * FROM " ++ table ++ " " ++ clause ++ " LIMIT 10").
Proof.
  unfold natural_language_query, has_query_verb, has_table_word. cbv zeta. cbn [existsb].
  rewrite !contains_normalised by keyword.
  destruct (Str.contains "查询" q || (Str.contains "查找" q
            || (Str.contains "显示" q || (Str.contains "列出" q || false))));
    [| left; split; reflexivity].
  right.
  assert (∀ (name table : string) (conditions : list string),
            name = table ++ " " → table ∈ tables →
            ∃ table clause,
              table ∈ tables
              ∧ match conditions with
                | [] => ("SELECT " ++ "* ") ++ "FROM " ++ name
                | _ :: _ => (("SELECT " ++ "* ") ++ "FROM " ++ name)
                            ++ "WHERE " ++ Str.join " AND " conditions
                end ++ " LIMIT 10"
                = "SELECT * FROM " ++ table ++ " " ++ clause ++ " LIMIT 10") as Hsql.
  { intros name table conditions -> Htable. exists table.
    exists (match conditions with
            | [] => ""
            | _ => "WHERE " ++ Str.join " AND " conditions
            end).
    split; [exact Htable |].
    assert (∀ x y z : string, (x ++ y) ++ z = x ++ y ++ z) as Hassoc.
    { intros x y z. induction x as [| ch x IH]; [reflexivity |].
      change ((String ch x ++ y) ++ z) with (String ch ((x ++ y) ++ z)).
      by rewrite IH. }
    destruct conditions; rewrite !Hassoc; reflexivity. }
  destruct (Str.contains "所有" q);
    (destruct (Str.contains "用户" q);
     [right; split; [reflexivity |]; split; [reflexivity |];
      apply (Hsql _ "users" _ eq_refl); vocabulary |]);
    (destruct (Str.contains "设备" q);
     [right; split; [reflexivity |]; split; [reflexivity |];
      apply (Hsql _ "devices" _ eq_refl); vocabulary |]);
    (destruct (Str.contains "使用记录" q);
     [right; split; [reflexivity |]; split; [reflexivity |];
      apply (Hsql _ "usage_logs" _ eq_refl); vocabulary |]);
    (destruct (Str.contains "安防事件" q);
     [right; split; [reflexivity |]; split; [reflexivity |];
      apply (Hsql _ "security_events" _ eq_refl); vocabulary |]);
    (destruct (Str.contains "反馈" q);
     [right; split; [reflexivity |]; split; [reflexivity |];
      apply (Hsql _ "user_feedback" _ eq_refl); vocabulary |]);
    (destruct (Str.contains "房间" q);
     [right; split; [reflexivity |]; split; [reflexivity |];
      apply (Hsql _ "rooms" _ eq_refl); vocabulary |]);
    left; repeat split; reflexivity.
Qed.

(** X11: every answer of the translator is the apology, the message about
    the unrecognized table, or a [SELECT * FROM] one of the six tables of the
    vocabulary of the gateway, with an optional clause and [LIMIT 10] at the
    end. *)
Theorem natural_language_query_shape (nl_query : string) :
  natural_language_query nl_query = only_simple_queries
  ∨ natural_language_query nl_query = table_not_recognized
  ∨ ∃ table clause,
      table ∈ tables
      ∧ natural_language_query nl_query
        = "SELECT * FROM " ++ table ++ " " ++ clause ++ " LIMIT 10".
Proof.
  destruct (translation_cases nl_query) as [[_ H] | [(_ & _ & H) | (_ & _ & H)]];
    [by left | by right; left | by right; right].
Qed.

(** X12: the word for users wins over every other table word: a request
    with a query verb that contains it is answered with a query on [users],
    even when it asks for the feedback of users. *)
Theorem natural_language_query_users_first (nl_query : string) :
  has_query_verb nl_query = true →
  Str.contains "用户" nl_query = true →
  ∃ clause,
    natural_language_query nl_query = "SELECT * FROM users " ++ clause ++ " LIMIT 10".
Proof.
  unfold natural_language_query, has_query_verb. cbv zeta. cbn [existsb].
  rewrite !contains_normalised by keyword.
  intros -> ->.
  match goal with
  | |- context [match ?c with [] => _ | _ :: _ => _ end] =>
    exists (match c with [] => "" | _ => "WHERE " ++ Str.join " AND " c end);
    destruct (Str.contains "所有" nl_query); destruct c; reflexivity
  end.
Qed.

Lemma natural_language_query_users_first_witness :
  has_query_verb "查询用户反馈" = true
  ∧ Str.contains "用户" "查询用户反馈" = true
  ∧ Str.contains "反馈" "查询用户反馈" = true
  ∧ ∃ clause,
      natural_language_query "查询用户反馈" = "SELECT * FROM users " ++ clause ++ " LIMIT 10".
Proof.
  split; [reflexivity |]. split; [reflexivity |]. split; [reflexivity |].
  exact (natural_language_query_users_first "查询用户反馈" eq_refl eq_refl).
Defined.

(** X13: the translation depends only on which of the seventeen Chinese
    words the request contains: letter case, surrounding blanks and any other
    text change nothing. *)
Theorem natural_language_query_keywords_only (q q' : string) :
  (∀ word, word ∈ nl_keywords → Str.contains word q = Str.contains word q') →
  natural_language_query q = natural_language_query q'.
Proof.
  intros Hsame. unfold natural_language_query. cbv zeta. cbn [existsb].
  rewrite !contains_normalised by keyword.
  rewrite !(Hsame "查询"), !(Hsame "查找"), !(Hsame "显示"), !(Hsame "列出"), !(Hsame "所有"),
    !(Hsame "用户"), !(Hsame "设备"), !(Hsame "使用记录"), !(Hsame "安防事件"),
    !(Hsame "反馈"), !(Hsame "房间"), !(Hsame "今天"), !(Hsame "昨天"), !(Hsame "本周"),
    !(Hsame "本月"), !(Hsame "在线"), !(Hsame "离线") by keyword.
  reflexivity.
Qed.

Lemma natural_language_query_keywords_only_witness :
  (∀ word, word ∈ nl_keywords →
     Str.contains word "列出所有在线设备" = Str.contains word "  PLEASE 列出在线的所有设备 now ")
  ∧ natural_language_query "列出所有在线设备"
    = natural_language_query "  PLEASE 列出在线的所有设备 now ".
Proof.
  assert (∀ word, word ∈ nl_keywords →
            Str.contains word "列出所有在线设备"
            = Str.contains word "  PLEASE 列出在线的所有设备 now ") as Hsame.
  { intros word Hword. unfold nl_keywords in Hword.
    repeat (apply elem_of_cons in Hword as [-> | Hword]; [reflexivity |]).
    inversion Hword. }
  split; [exact Hsame |].
  exact (natural_language_query_keywords_only _ _ Hsame).
Defined.

(** ** The callers of the gateway *)

Lemma prefix_literal (a : ascii) (p : string) (c : ascii) (s : string) :
  a ≠ c → String.prefix (String a p) (String c s) = false.
Proof. intros Hne. by rewrite prefix_cons, decide_False. Qed.

(** X14: the natural-language branch hands the translation to
    [execute_query] exactly when the request contains a query verb; so a
    request with a verb and no table word makes the tool run the message
    about the unrecognized table as if it were SQL. *)
Theorem run_natural_language_gate (E : Collaborators) (nl_query : string) (t : Tool (DB E)) :
  (has_query_verb nl_query = false → run_natural_language nl_query t = (Return None, t))
  ∧ (has_query_verb nl_query = true →
     run_natural_language nl_query t = handed_on (natural_language_query nl_query) t)
  ∧ (has_query_verb nl_query = true → has_table_word nl_query = false →
     run_natural_language nl_query t = handed_on table_not_recognized t).
Proof.
  unfold run_natural_language, handed_on, Text.startswith.
  destruct (translation_cases nl_query)
    as [[Hverb ->] | [(Hverb & Htable & ->) | (Hverb & Htable & table & clause & _ & ->)]];
    rewrite Hverb; repeat split; try discriminate; try reflexivity.
  rewrite Htable. discriminate.
Qed.

Lemma run_natural_language_gate_witness :
  has_query_verb "查询" = true
  ∧ has_table_word "查询" = false
  ∧ run_natural_language "查询" Demo.connected = handed_on table_not_recognized Demo.connected.
Proof.
  split; [reflexivity |]. split; [reflexivity |].
  exact (proj2 (proj2 (run_natural_language_gate Demo.sqlite "查询" Demo.connected))
           eq_refl eq_refl).
Defined.
